(** * Order lifecycle of the design-marketplace server

    A shallow embedding of the order entity (models/Order.js: schema,
    pre-save hook, [calculateTotals], [addTrackingUpdate], [processRefund])
    and of the order routes (routes/orders.js: create, read one order,
    status update, tracking update, refund), followed by the properties
    of pricing, order numbering, tracking, refunds and access.

    Modelling conventions.
    - A JavaScript [Number] is an IEEE-754 binary64 value: Rocq's primitive
      [float], with its own [+], [*], [<?] and [<=?].
    - A collection of the document store is a finite map from [_id] to the
      stored document.  A Mongoose document in memory is the stored data
      plus the [isNew] flag.
    - [new Date()] is a parameter [now] of every operation: one request
      reads the clock once.  A [Date] is kept as its local calendar fields,
      the very fields the pre-save hook reads back.
    - Request bodies are records of optional fields ([None] is JavaScript's
      [undefined]).  A text that has to denote an ObjectId is an
      [option ObjectId]: [None] when it does not denote one.
    - The validators of express-validator used by the routes ([isIn],
      [notEmpty], [isInt], [isFloat], [isArray], [optional], [trim]) are
      written out; [isEmail] is a parameter of the create route.
    - [save] is the validation of the document against the schema
      ([required], [enum]), then the pre-save hook, the timestamps and
      the write; an insert consults the [unique] index on [orderNumber].
      The mapper validates before it runs the hooks of the schema, so a
      new document is validated as the route built it, before the
      pre-save hook has given it its order number.
    - The collection is taken to hold documents that pass the schema's
      validators; what the methods and routes change of such a document
      passes them again ([StoreFacts.validates_kept]), so the model
      validates a document on its first save and not on the later ones.
    - The authentication middlewares [auth] and [adminAuth] are outside
      the model: a route is modelled from its validators on. *)

From Stdlib Require Import ZArith Floats Ascii String List Bool Lia.
From stdpp Require Import gmap strings list fin_maps.
Import ListNotations.

#[local] Open Scope Z_scope.

(** Decimal literals such as 0.085 denote the nearest binary64 value, as
    they do in JavaScript. *)
#[local] Set Warnings "-inexact-float".

(** ** JavaScript strings and numbers, as far as the order code uses them *)

Module Js.

(** The decimal digit [d] (0..9) as a character. *)
Definition digitChar (d : Z) : ascii := ascii_of_N (48 + Z.to_N d).

Definition isDigit (c : ascii) : bool :=
  let n := N_of_ascii c in ((48 <=? n) && (n <=? 57))%N.

(** Digits of a non-negative integer, most significant first, in front of
    [acc].  [fuel] bounds the number of further digits. *)
Fixpoint digitsAcc (fuel : nat) (n : Z) (acc : string) : string :=
  let acc' := String (digitChar (n mod 10)) acc in
  match fuel with
  | O => acc'
  | S f => if n / 10 =? 0 then acc' else digitsAcc f (n / 10) acc'
  end.

(** [Number.prototype.toString()] on an integer. *)
Definition toString (n : Z) : string :=
  if n <? 0
  then String "-" (digitsAcc (Z.to_nat (Z.log2 (- n))) (- n) "")
  else digitsAcc (Z.to_nat (Z.log2 n)) n "".

(** [s.slice(start)]: a negative [start] counts from the end. *)
Definition slice (start : Z) (s : string) : string :=
  let len := Z.of_nat (String.length s) in
  let from := if start <? 0 then Z.max (len + start) 0 else Z.min start len in
  substring (Z.to_nat from) (Z.to_nat (len - from)) s.

Fixpoint repeatChar (c : ascii) (k : nat) : string :=
  match k with
  | O => EmptyString
  | S k' => String c (repeatChar c k')
  end.

(** [s.padStart(width, c)] with a one-character filler. *)
Definition padStart (width : nat) (c : ascii) (s : string) : string :=
  String.append (repeatChar c (width - String.length s)) s.

Fixpoint allChars (p : ascii -> bool) (s : string) : bool :=
  match s with
  | EmptyString => true
  | String c s' => p c && allChars p s'
  end.

(** The value of a string of decimal digits. *)
Fixpoint digitsValueAcc (s : string) (acc : Z) : Z :=
  match s with
  | EmptyString => acc
  | String c s' => digitsValueAcc s' (10 * acc + (Z.of_N (N_of_ascii c) - 48))
  end.

Definition digitsValue (s : string) : Z := digitsValueAcc s 0.

(** Whitespace as [\s] sees it, on the characters a byte string has. *)
Definition isSpace (c : ascii) : bool :=
  let n := N_of_ascii c in
  ((9 <=? n) && (n <=? 13) || (n =? 32) || (n =? 160))%N.

Fixpoint trimStart (s : string) : string :=
  match s with
  | EmptyString => EmptyString
  | String c s' => if isSpace c then trimStart s' else s
  end.

Fixpoint trimEnd (s : string) : string :=
  match s with
  | EmptyString => EmptyString
  | String c s' =>
      match trimEnd s' with
      | EmptyString => if isSpace c then EmptyString else String c EmptyString
      | t => String c t
      end
  end.

(** [trim()] of validator.js: strips whitespace on both sides. *)
Definition trim (s : string) : string := trimEnd (trimStart s).

(** A value is truthy, for a string, when it is not empty. *)
Definition truthy (s : string) : bool := negb (String.eqb s "").

(** [re.test(s)] for the pattern [ORD\d{8}]: the three letters followed by
    eight decimal digits, anywhere in [s]. *)
Definition matchesHere_ORD_d8 (s : string) : bool :=
  String.eqb (substring 0 3 s) "ORD"
  && (String.length (substring 3 8 s) =? 8)%nat
  && allChars isDigit (substring 3 8 s).

Fixpoint test_ORD_d8 (s : string) : bool :=
  matchesHere_ORD_d8 s
  || match s with
     | EmptyString => false
     | String _ s' => test_ORD_d8 s'
     end.

End Js.

(** ** The built-in [Date], in the server's local calendar *)

Module JsDate.

(** An instant, as the local calendar fields its getters return.
    [getMonth] is 0-based; [getMillis] counts from local midnight. *)
Record Date := mk {
  getFullYear : Z;
  getMonth : Z;
  getDate : Z;
  getMillis : Z
}.

Definition isLeap (y : Z) : bool :=
  ((y mod 4 =? 0) && negb (y mod 100 =? 0)) || (y mod 400 =? 0).

Definition daysInMonth (y m : Z) : Z :=
  if m =? 1 then (if isLeap y then 29 else 28)
  else if (m =? 3) || (m =? 5) || (m =? 8) || (m =? 10) then 30
  else 31.

(** [new Date(y, m, d)]: local midnight of that day.  A year 0..99 means
    1900 + y; a day past the end of the month rolls into the next month
    (written out for a roll of one month, which covers [getDate() + 1]). *)
Definition ymd (y m d : Z) : Date :=
  let y' := if (0 <=? y) && (y <=? 99) then 1900 + y else y in
  let dim := daysInMonth y' m in
  if d <=? dim then mk y' m d 0
  else if m <? 11 then mk y' (m + 1) (d - dim) 0
  else mk (y' + 1) 0 (d - dim) 0.

(** Order of two instants: the fields, most significant first. *)
Definition compare (a b : Date) : comparison :=
  match getFullYear a ?= getFullYear b with
  | Eq =>
      match getMonth a ?= getMonth b with
      | Eq =>
          match getDate a ?= getDate b with
          | Eq => getMillis a ?= getMillis b
          | c => c
          end
      | c => c
      end
  | c => c
  end.

Definition ltb (a b : Date) : bool :=
  match compare a b with Lt => true | _ => false end.

Definition leb (a b : Date) : bool :=
  match compare a b with Gt => false | _ => true end.

(** What the system clock can return: a day of the calendar, from the
    epoch on. *)
Definition valid (t : Date) : Prop :=
  1970 <= getFullYear t /\
  0 <= getMonth t <= 11 /\
  1 <= getDate t <= daysInMonth (getFullYear t) (getMonth t) /\
  0 <= getMillis t < 86400000.

Definition sameDay (a b : Date) : Prop :=
  getFullYear a = getFullYear b /\ getMonth a = getMonth b /\
  getDate a = getDate b.

End JsDate.

Abbreviation Date := JsDate.Date.

(** ** The entities: models/Design.js and models/Order.js *)

Definition ObjectId := N.

Module Design.
(** The paths of the design schema the order route reads. *)
Record t := mk {
  _id : ObjectId;
  title : string;
  price : float;
  status : string
}.
End Design.

Module Item.
Record t := mk {
  design : ObjectId;
  quantity : float;
  price : float;
  license : string
}.
End Item.

Module Address.
Record t := mk {
  name : option string;
  email : option string;
  phone : option string;
  street : option string;
  city : option string;
  state : option string;
  zipCode : option string;
  country : option string
}.
End Address.

Module PaymentDetails.
Record t := mk {
  transactionId : option string;
  paymentDate : option Date;
  gateway : option string
}.
End PaymentDetails.

Module TrackingUpdate.
Record t := mk {
  status : string;
  location : option string;
  timestamp : Date;
  description : option string
}.
End TrackingUpdate.

Module Tracking.
Record t := mk {
  number : option string;
  carrier : option string;
  status : option string;
  updates : list TrackingUpdate.t
}.
End Tracking.

Module Download.
Record t := mk {
  design : option ObjectId;
  downloadUrl : option string;
  expiresAt : option Date;
  downloadCount : float
}.
End Download.

Module Refund.
Record t := mk {
  amount : float;
  reason : string;
  processedAt : Date;
  processedBy : ObjectId
}.
End Refund.

Module Order.

(** The order schema, with the [_id] and the two timestamps the store
    adds ([timestamps: true]).  [orderNumber] is [None] as long as nothing
    has assigned it. *)
Record t := mk {
  _id : ObjectId;
  orderNumber : option string;
  customer : ObjectId;
  items : list Item.t;
  subtotal : float;
  tax : float;
  total : float;
  currency : string;
  status : string;
  paymentStatus : string;
  paymentMethod : string;
  paymentDetails : PaymentDetails.t;
  billingAddress : Address.t;
  shippingAddress : Address.t;
  notes : option string;
  tracking : Tracking.t;
  downloads : list Download.t;
  refund : option Refund.t;
  createdAt : option Date;
  updatedAt : option Date
}.

(** Assignment to one path of a document. *)
Definition set_orderNumber (v : option string) (o : t) : t :=
  mk (_id o) v (customer o) (items o) (subtotal o) (tax o) (total o)
    (currency o) (status o) (paymentStatus o) (paymentMethod o)
    (paymentDetails o) (billingAddress o) (shippingAddress o) (notes o)
    (tracking o) (downloads o) (refund o) (createdAt o) (updatedAt o).

Definition set_subtotal (v : float) (o : t) : t :=
  mk (_id o) (orderNumber o) (customer o) (items o) v (tax o) (total o)
    (currency o) (status o) (paymentStatus o) (paymentMethod o)
    (paymentDetails o) (billingAddress o) (shippingAddress o) (notes o)
    (tracking o) (downloads o) (refund o) (createdAt o) (updatedAt o).

Definition set_total (v : float) (o : t) : t :=
  mk (_id o) (orderNumber o) (customer o) (items o) (subtotal o) (tax o) v
    (currency o) (status o) (paymentStatus o) (paymentMethod o)
    (paymentDetails o) (billingAddress o) (shippingAddress o) (notes o)
    (tracking o) (downloads o) (refund o) (createdAt o) (updatedAt o).

Definition set_status (v : string) (o : t) : t :=
  mk (_id o) (orderNumber o) (customer o) (items o) (subtotal o) (tax o)
    (total o) (currency o) v (paymentStatus o) (paymentMethod o)
    (paymentDetails o) (billingAddress o) (shippingAddress o) (notes o)
    (tracking o) (downloads o) (refund o) (createdAt o) (updatedAt o).

Definition set_paymentStatus (v : string) (o : t) : t :=
  mk (_id o) (orderNumber o) (customer o) (items o) (subtotal o) (tax o)
    (total o) (currency o) (status o) v (paymentMethod o) (paymentDetails o)
    (billingAddress o) (shippingAddress o) (notes o) (tracking o) (downloads
    o) (refund o) (createdAt o) (updatedAt o).

Definition set_tracking (v : Tracking.t) (o : t) : t :=
  mk (_id o) (orderNumber o) (customer o) (items o) (subtotal o) (tax o)
    (total o) (currency o) (status o) (paymentStatus o) (paymentMethod o)
    (paymentDetails o) (billingAddress o) (shippingAddress o) (notes o) v
    (downloads o) (refund o) (createdAt o) (updatedAt o).

Definition set_refund (v : option Refund.t) (o : t) : t :=
  mk (_id o) (orderNumber o) (customer o) (items o) (subtotal o) (tax o)
    (total o) (currency o) (status o) (paymentStatus o) (paymentMethod o)
    (paymentDetails o) (billingAddress o) (shippingAddress o) (notes o)
    (tracking o) (downloads o) v (createdAt o) (updatedAt o).

Definition set_createdAt (v : option Date) (o : t) : t :=
  mk (_id o) (orderNumber o) (customer o) (items o) (subtotal o) (tax o)
    (total o) (currency o) (status o) (paymentStatus o) (paymentMethod o)
    (paymentDetails o) (billingAddress o) (shippingAddress o) (notes o)
    (tracking o) (downloads o) (refund o) v (updatedAt o).

Definition set_updatedAt (v : option Date) (o : t) : t :=
  mk (_id o) (orderNumber o) (customer o) (items o) (subtotal o) (tax o)
    (total o) (currency o) (status o) (paymentStatus o) (paymentMethod o)
    (paymentDetails o) (billingAddress o) (shippingAddress o) (notes o)
    (tracking o) (downloads o) (refund o) (createdAt o) v.

(** A document in memory: [isNew] until its first save. *)
Record Doc := mkDoc {
  isNew : bool;
  data : t
}.

Definition modify (f : t -> t) (d : Doc) : Doc := mkDoc (isNew d) (f (data d)).

(** The order collection. *)
Abbreviation Store := (gmap ObjectId t).

(** What a route's [try] block can throw: a failed cast to ObjectId, a
    document that fails the validators of the schema, a refused insert,
    and the use of an absent value (which the validators of every route
    exclude before the value is used). *)
Inductive Thrown :=
| CastError_ObjectId
| ValidationError
| DuplicateKey
| UndefinedValue.

(** An awaited computation over the collection: it returns or throws. *)
Inductive Outcome (A : Type) :=
| Returned (a : A) (st : Store)
| Threw (e : Thrown) (st : Store).
Arguments Returned {A} a st.
Arguments Threw {A} e st.

Definition Async (A : Type) : Type := Store -> Outcome A.

(** What an awaited computation returns, when it returns. *)
Definition returned {A} (r : Outcome A) : option A :=
  match r with
  | Returned a _ => Some a
  | Threw _ _ => None
  end.

Definition ret {A} (a : A) : Async A := fun st => Returned a st.

Definition throw {A} (e : Thrown) : Async A := fun st => Threw e st.

Definition bind {A B} (c : Async A) (k : A -> Async B) : Async B :=
  fun st =>
    match c st with
    | Returned a st' => k a st'
    | Threw e st' => Threw e st'
    end.

Notation "'await' x <- c ; k" := (bind c (fun x => k))
  (at level 10, x name, c at level 100, k at level 200).

(** [Order.findById(id)]: a text that is no ObjectId makes the cast throw;
    a found order comes back as a document that is not new. *)
Definition findById (id : option ObjectId) : Async (option Doc) :=
  fun st =>
    match id with
    | None => Threw CastError_ObjectId st
    | Some i => Returned (mkDoc false <$> st !! i) st
    end.

(** The filter [{createdAt: {$gte: from, $lt: to}}]. *)
Definition createdBetween (from to : Date) (o : t) : bool :=
  match createdAt o with
  | Some c => JsDate.leb from c && JsDate.ltb c to
  | None => false
  end.

(** [Order.countDocuments(filter)]. *)
Definition countDocuments (p : t -> bool) (st : Store) : nat :=
  size (filter (fun kv : ObjectId * t => p kv.2 = true) st).

(** The parts of the pre-save hook, by name: the two bounds it builds
    from [now], its count, its sequence number and the order number. *)
Definition todayStart (now : Date) : Date :=
  JsDate.ymd (JsDate.getFullYear now) (JsDate.getMonth now) (JsDate.getDate now).

Definition todayEnd (now : Date) : Date :=
  JsDate.ymd (JsDate.getFullYear now) (JsDate.getMonth now) (JsDate.getDate now + 1).

(** The orders of [now]'s day, as the hook counts them. *)
Definition orderCount (now : Date) (st : Store) : nat :=
  countDocuments (createdBetween (todayStart now) (todayEnd now)) st.

(** The sequence number the hook gives the next order of [now]'s day. *)
Definition nextSequence (now : Date) (st : Store) : Z :=
  Z.of_nat (orderCount now st) + 1.

(** The date part of an order number: [year], [month], [day]. *)
Definition datePart (now : Date) : string :=
  let year := Js.slice (-2) (Js.toString (JsDate.getFullYear now)) in
  let month := Js.padStart 2 "0" (Js.toString (JsDate.getMonth now + 1)) in
  let day := Js.padStart 2 "0" (Js.toString (JsDate.getDate now)) in
  String.append year (String.append month day).

(** The order number with sequence number [n] on [now]'s day. *)
Definition numberWith (now : Date) (n : Z) : string :=
  let sequence := Js.padStart 3 "0" (Js.toString n) in
  String.append "ORD" (String.append (datePart now) sequence).

(** The order number of the next order of [now]'s day. *)
Definition numberFor (now : Date) (st : Store) : string :=
  numberWith now (nextSequence now st).

(** [orderSchema.pre('save')]: a new document gets its order number. *)
Definition preSave (now : Date) (d : Doc) : Async Doc :=
  fun st =>
    if isNew d then
      let date := now in
      let year := Js.slice (-2) (Js.toString (JsDate.getFullYear date)) in
      let month := Js.padStart 2 "0" (Js.toString (JsDate.getMonth date + 1)) in
      let day := Js.padStart 2 "0" (Js.toString (JsDate.getDate date)) in
      let todayStart :=
        JsDate.ymd (JsDate.getFullYear date) (JsDate.getMonth date)
                   (JsDate.getDate date) in
      let todayEnd :=
        JsDate.ymd (JsDate.getFullYear date) (JsDate.getMonth date)
                   (JsDate.getDate date + 1) in
      let orderCount := countDocuments (createdBetween todayStart todayEnd) st in
      let sequence := Js.padStart 3 "0" (Js.toString (Z.of_nat orderCount + 1)) in
      let orderNumber' := "ORD" +:+ year +:+ month +:+ day +:+ sequence in
      Returned (modify (set_orderNumber (Some orderNumber')) d) st
    else Returned d st.

(** The lists of the schema's [enum] validators. *)
Definition licenseEnum : list string := ["personal"; "commercial"; "exclusive"].

Definition statusEnum : list string :=
  ["pending"; "processing"; "completed"; "cancelled"; "refunded"].

Definition paymentStatusEnum : list string :=
  ["pending"; "paid"; "failed"; "refunded"].

Definition paymentMethodEnum : list string :=
  ["stripe"; "paypal"; "bank-transfer"; "crypto"].

Definition oneOf (values : list string) (s : string) : bool :=
  existsb (String.eqb s) values.

(** The validators the schema declares.  [required]: [orderNumber] is
    there and not the empty string (the other required paths, [customer],
    [items.design], [items.price], [subtotal], [total] and
    [paymentMethod], have a value by their type here).  [enum]: the
    license of every item, [status], [paymentStatus] and [paymentMethod]
    are of their lists. *)
Definition validates (o : t) : bool :=
  match orderNumber o with
  | Some s => negb (String.eqb s "")
  | None => false
  end
  && forallb (fun it => oneOf licenseEnum (Item.license it)) (items o)
  && oneOf statusEnum (status o)
  && oneOf paymentStatusEnum (paymentStatus o)
  && oneOf paymentMethodEnum (paymentMethod o).

(** [doc.validate()], the first thing [save] does: it runs before the
    pre-save hooks of the schema.  A document that is not new was read
    from the collection and is not validated again (see the conventions
    above). *)
Definition validate (d : Doc) : Async Doc :=
  fun st =>
    if isNew d && negb (validates (data d)) then Threw ValidationError st
    else Returned d st.

(** [timestamps: true]: [createdAt] on the first save, [updatedAt] on
    every save. *)
Definition stamp (now : Date) (d : Doc) : Doc :=
  let d' := if isNew d then modify (set_createdAt (Some now)) d else d in
  modify (set_updatedAt (Some now)) d'.

(** The [unique] index on [orderNumber]: some stored order holds [n]. *)
Definition numberHeld (n : option string) (st : Store) : bool :=
  negb (Nat.eqb
          (size (filter (fun kv : ObjectId * t => orderNumber kv.2 = n) st)) 0).

(** Writing the document: an insert for a new one (the store refuses an
    [_id] it already has, and an order number it already has), a
    replacement otherwise (an update sends the paths that changed, and
    neither the hook nor a method assigns [orderNumber] to a document that
    is not new). *)
Definition write (d : Doc) : Async Doc :=
  fun st =>
    if isNew d then
      match st !! _id (data d) with
      | Some _ => Threw DuplicateKey st
      | None =>
          if numberHeld (orderNumber (data d)) st then Threw DuplicateKey st
          else Returned (mkDoc false (data d)) (<[_id (data d) := data d]> st)
      end
    else Returned d (<[_id (data d) := data d]> st).

(** [doc.save()]: the validation, the pre-save hook, the timestamps and
    the write. *)
Definition save (now : Date) (d : Doc) : Async Doc :=
  await d0 <- validate d;
  await d1 <- preSave now d0;
  write (stamp now d1).

(** A collection keeps every document under its own [_id]. *)
Definition wf (st : Store) : Prop :=
  forall k o, st !! k = Some o -> _id o = k.

(** Two orders agree on everything but the refund, the two statuses and
    the time of the last save. *)
Definition sameButRefund (o o' : t) : Prop :=
  items o' = items o /\ subtotal o' = subtotal o /\ tax o' = tax o /\
  total o' = total o /\ orderNumber o' = orderNumber o /\
  customer o' = customer o /\ paymentMethod o' = paymentMethod o /\
  tracking o' = tracking o /\
  _id o' = _id o /\ currency o' = currency o /\
  paymentDetails o' = paymentDetails o /\
  billingAddress o' = billingAddress o /\
  shippingAddress o' = shippingAddress o /\ notes o' = notes o /\
  downloads o' = downloads o /\ createdAt o' = createdAt o.

(** [new Order({customer, items, subtotal, tax, total, paymentMethod,
    billingAddress, shippingAddress, notes})], with the schema defaults
    and a fresh [_id]. *)
Definition new (freshId customer : ObjectId) (items' : list Item.t)
    (subtotal' tax' total' : float) (paymentMethod' : string)
    (billingAddress' shippingAddress' : Address.t) (notes' : option string) : Doc :=
  mkDoc true
    (mk freshId None customer items' subtotal' tax' total' "USD" "pending"
        "pending" paymentMethod' (PaymentDetails.mk None None None)
        billingAddress' shippingAddress' notes'
        (Tracking.mk None None None []) [] None None None).

(** The sum of price times quantity over order items, from [sum] on, in
    the order of the items. *)
Definition sumFrom (sum : float) (its : list Item.t) : float :=
  fold_left (fun sum item => (sum + Item.price item * Item.quantity item)%float)
            its sum.

(** [orderSchema.methods.calculateTotals]. *)
Definition calculateTotals (o : t) : t :=
  let subtotal' := sumFrom 0%float (items o) in
  let o1 := set_subtotal subtotal' o in
  set_total (subtotal o1 + tax o1)%float o1.

(** [orderSchema.methods.addTrackingUpdate]. *)
Definition pushUpdate (now : Date) (status' : string)
    (location description : option string) (o : t) : t :=
  let entry := TrackingUpdate.mk status' location now description in
  let tr := tracking o in
  let tr1 :=
    Tracking.mk (Tracking.number tr) (Tracking.carrier tr) (Tracking.status tr)
                (Tracking.updates tr ++ [entry]) in
  let tr2 :=
    Tracking.mk (Tracking.number tr1) (Tracking.carrier tr1) (Some status')
                (Tracking.updates tr1) in
  set_tracking tr2 o.

Definition addTrackingUpdate (now : Date) (status' : string)
    (location description : option string) (d : Doc) : Async Doc :=
  save now (modify (pushUpdate now status' location description) d).

(** [orderSchema.methods.processRefund]. *)
Definition markRefunded (now : Date) (amount : float) (reason : string)
    (processedBy : ObjectId) (o : t) : t :=
  let o1 := set_refund (Some (Refund.mk amount reason now processedBy)) o in
  let o2 := set_status "refunded" o1 in
  set_paymentStatus "refunded" o2.

Definition processRefund (now : Date) (amount : float) (reason : string)
    (processedBy : ObjectId) (d : Doc) : Async Doc :=
  save now (modify (markRefunded now amount reason processedBy) d).

End Order.

(** ** The routes: routes/orders.js *)

Module Routes.
Import Order.

(** The JSON a route answers with: the validation errors; a message; the
    two messages of the create route that quote a design id or title; a
    message with an order. *)
Inductive Payload :=
| Errors (errors : list string)
| Message (message : string)
| DesignNotFound (design : option ObjectId)
| DesignNotAvailable (title : string)
| MessageOrder (message : string) (order : option Order.t).

Record Response := mkResponse {
  statusCode : Z;
  payload : Payload
}.

(** [try { body } catch (error) { handler }] around a route. *)
Definition tryCatch (body : Async Response) (handler : Thrown -> Response)
    (st : Store) : Response * Store :=
  match body st with
  | Returned r st' => (r, st')
  | Threw e st' => (handler e, st')
  end.

Definition serverError (_ : Thrown) : Response :=
  mkResponse 500 (Message "Server error").

(** The [catch] of the routes that take an order id: a failed cast of
    the id reads as an order that is not there. *)
Definition notFoundOrServerError (e : Thrown) : Response :=
  match e with
  | CastError_ObjectId => mkResponse 404 (Message "Order not found")
  | _ => mkResponse 500 (Message "Server error")
  end.

(** *** Validators *)

Definition check (ok : bool) (msg : string) : list string :=
  if ok then [] else [msg].

Definition isIn (values : list string) (v : option string) : bool :=
  match v with
  | Some s => existsb (String.eqb s) values
  | None => false
  end.

Definition notEmpty (v : option string) : bool :=
  match v with
  | Some s => negb (String.eqb s "")
  | None => false
  end.

(** A float that is a whole number. *)
Definition isWhole (f : float) : bool :=
  match Prim2SF f with
  | S754_zero _ => true
  | S754_finite _ m e => (0 <=? e) || (Z.pos m mod 2 ^ (- e) =? 0)
  | _ => false
  end.

(** [isInt({ min })]: the number prints as an integer literal (whole and
    below 1e21) that is at least [min]. *)
Definition isInt (min : float) (v : option float) : bool :=
  match v with
  | Some q => isWhole q && (abs q <? 1e21)%float && (min <=? q)%float
  | None => false
  end.

(** [isFloat({ min })]: a finite number that is at least [min]. *)
Definition isFloat (min : float) (v : option float) : bool :=
  match v with
  | Some a => is_finite a && (min <=? a)%float
  | None => false
  end.

Definition isPresent {A} (v : option A) : bool :=
  match v with Some _ => true | None => false end.

(** [isMongoId()]: the text denotes an ObjectId. *)
Definition isMongoId (v : option ObjectId) : bool := isPresent v.

(** [isObject()]. *)
Definition isObject (v : option Address.t) : bool := isPresent v.

(** [optional()]: an absent value passes. *)
Definition optional {A} (validator : option A -> bool) (v : option A) : bool :=
  match v with
  | None => true
  | Some _ => validator v
  end.

Definition statuses : list string :=
  ["pending"; "processing"; "completed"; "cancelled"; "refunded"].

Definition paymentStatuses : list string :=
  ["pending"; "paid"; "failed"; "refunded"].

Definition licenses : list string := ["personal"; "commercial"; "exclusive"].

Definition paymentMethods : list string :=
  ["stripe"; "paypal"; "bank-transfer"; "crypto"].

(** *** POST /api/orders *)

Record ItemBody := mkItemBody {
  design : option ObjectId;
  quantity : option float;
  license : option string
}.

Record CreateBody := mkCreateBody {
  items : option (list ItemBody);
  paymentMethod : option string;
  billingAddress : option Address.t;
  shippingAddress : option Address.t;
  notes : option string
}.

Definition taxRate : float := 0.085%float.

Section Create.

(** [isEmail] of validator.js. *)
Variable isEmail : string -> bool.

(** The designs collection; the route only reads it. *)
Variable designs : gmap ObjectId Design.t.

Definition isArray_min1 (v : option (list ItemBody)) : bool :=
  match v with
  | Some (_ :: _) => true
  | _ => false
  end.

Definition eachItem (v : option (list ItemBody)) (ok : ItemBody -> bool)
    (msg : string) : list string :=
  flat_map (fun it => check (ok it) msg) (default [] v).

Definition validateCreate (b : CreateBody) : list string :=
  check (isArray_min1 (items b)) "At least one item is required"
  ++ eachItem (items b) (fun it => isMongoId (design it)) "Invalid design ID"
  ++ eachItem (items b) (fun it => isInt 1 (quantity it)) "Quantity must be at least 1"
  ++ eachItem (items b) (fun it => isIn licenses (license it)) "Invalid license type"
  ++ check (isIn paymentMethods (paymentMethod b)) "Invalid payment method"
  ++ check (isObject (billingAddress b)) "Billing address is required"
  ++ check (notEmpty (billingAddress b ≫= Address.name)) "Billing name is required"
  ++ check (match billingAddress b ≫= Address.email with
            | Some e => isEmail e
            | None => false
            end) "Valid billing email is required".

(** [Design.findById(id)]. *)
Definition Design_findById (id : option ObjectId) : Async (option Design.t) :=
  match id with
  | None => throw CastError_ObjectId
  | Some i => ret (designs !! i)
  end.

(** An item has the three values the loop uses. *)
Definition wellFormed (it : ItemBody) : Prop :=
  is_Some (design it) /\ is_Some (quantity it) /\ is_Some (license it).

(** The design an item names, when the collection has it. *)
Definition referenced (it : ItemBody) : option Design.t :=
  design it ≫= (fun id => designs !! id).

(** An item names no design of the collection. *)
Definition missing (it : ItemBody) : Prop :=
  is_Some (design it) /\ referenced it = None.

(** An item names a design that is not published. *)
Definition unpublished (it : ItemBody) : Prop :=
  exists dsg, referenced it = Some dsg /\ Design.status dsg <> "published".

(** An item names a published design. *)
Definition purchasable (it : ItemBody) : Prop :=
  exists dsg, referenced it = Some dsg /\ Design.status dsg = "published".

(** The order item [l] is the item [it] of the request with the price of
    its design. *)
Definition lineOf (it : ItemBody) (l : Item.t) : Prop :=
  exists dsg qty lic,
    referenced it = Some dsg /\ Design.status dsg = "published" /\
    quantity it = Some qty /\ license it = Some lic /\
    l = Item.mk (Design._id dsg) qty (Design.price dsg) lic.

(** The loop over the items: it leaves early with a response, or ends with
    the order items and the subtotal. *)
Fixpoint resolveItems (its : list ItemBody) (orderItems : list Item.t)
    (subtotal : float) : Async (Response + list Item.t * float) :=
  match its with
  | [] => ret (inr (orderItems, subtotal))
  | item :: rest =>
      await found <- Design_findById (design item);
      match found with
      | None => ret (inl (mkResponse 400 (DesignNotFound (design item))))
      | Some dsg =>
          if negb (String.eqb (Design.status dsg) "published")
          then ret (inl (mkResponse 400 (DesignNotAvailable (Design.title dsg))))
          else
            match quantity item, license item with
            | Some qty, Some lic =>
                let itemTotal := (Design.price dsg * qty)%float in
                resolveItems rest
                  (orderItems ++ [Item.mk (Design._id dsg) qty (Design.price dsg) lic])
                  (subtotal + itemTotal)%float
            | _, _ =>
                (* not reached: [isInt] and [isIn] reject an absent value *)
                throw UndefinedValue
            end
      end
  end.

Definition create (now : Date) (freshId user : ObjectId) (b : CreateBody)
    : Store -> Response * Store :=
  tryCatch
    (let errors := validateCreate b in
     if negb (bool_decide (errors = []))
     then ret (mkResponse 400 (Errors errors))
     else
       match items b, paymentMethod b, billingAddress b with
       | Some its, Some method, Some billing =>
           await resolved <- resolveItems its [] 0%float;
           match resolved with
           | inl response => ret response
           | inr (orderItems, subtotal) =>
               let tax := (subtotal * taxRate)%float in
               let total := (subtotal + tax)%float in
               let order :=
                 Order.new freshId user orderItems subtotal tax total method
                           billing (default billing (shippingAddress b)) (notes b) in
               await saved <- save now order;
               await populatedOrder <- findById (Some (_id (data saved)));
               ret (mkResponse 201
                      (MessageOrder "Order created successfully"
                                    (data <$> populatedOrder)))
           end
       | _, _, _ =>
           (* not reached: the validators reject an absent value *)
           throw UndefinedValue
       end)
    serverError.

(** The order the route builds from the order items [lines], as it hands
    it to [save]. *)
Definition built (freshId user : ObjectId) (b : CreateBody)
    (lines : list Item.t) (method : string) (billing : Address.t) : Doc :=
  let subtotal := sumFrom 0%float lines in
  let tax := (subtotal * taxRate)%float in
  Order.new freshId user lines subtotal tax (subtotal + tax)%float method
            billing (default billing (shippingAddress b)) (notes b).

End Create.

(** *** PUT /api/orders/:id/status *)

Record StatusBody := mkStatusBody {
  sb_status : option string;
  sb_paymentStatus : option string
}.

Definition validateStatus (b : StatusBody) : list string :=
  check (isIn statuses (sb_status b)) "Invalid status"
  ++ check (optional (isIn paymentStatuses) (sb_paymentStatus b))
           "Invalid payment status".

Definition updateStatus (now : Date) (id : option ObjectId) (b : StatusBody)
    : Store -> Response * Store :=
  tryCatch
    (let errors := validateStatus b in
     if negb (bool_decide (errors = []))
     then ret (mkResponse 400 (Errors errors))
     else
       await found <- findById id;
       match found, sb_status b with
       | None, _ => ret (mkResponse 404 (Message "Order not found"))
       | Some order, Some status' =>
           let order1 := modify (set_status status') order in
           let order2 :=
             match sb_paymentStatus b with
             | Some paymentStatus' =>
                 if Js.truthy paymentStatus'
                 then modify (set_paymentStatus paymentStatus') order1
                 else order1
             | None => order1
             end in
           await saved <- save now order2;
           await updatedOrder <- findById (Some (_id (data saved)));
           ret (mkResponse 200
                  (MessageOrder "Order status updated successfully"
                                (data <$> updatedOrder)))
       | Some _, None =>
           (* not reached: the validator rejects an absent status *)
           throw UndefinedValue
       end)
    notFoundOrServerError.

(** The payment status the route leaves, for a request that passed the
    validators. *)
Definition paymentStatusAfter (b : StatusBody) (o : Order.t) : string :=
  match sb_paymentStatus b with
  | Some ps => ps
  | None => paymentStatus o
  end.

(** *** POST /api/orders/:id/tracking *)

Record TrackingBody := mkTrackingBody {
  tb_status : option string;
  tb_location : option string;
  tb_description : option string
}.

Definition validateTracking (b : TrackingBody) : list string :=
  check (notEmpty (tb_status b)) "Tracking status is required".

Definition addTracking (now : Date) (id : option ObjectId) (b : TrackingBody)
    : Store -> Response * Store :=
  tryCatch
    (let errors := validateTracking b in
     if negb (bool_decide (errors = []))
     then ret (mkResponse 400 (Errors errors))
     else
       let location := Js.trim <$> tb_location b in
       let description := Js.trim <$> tb_description b in
       await found <- findById id;
       match found, tb_status b with
       | None, _ => ret (mkResponse 404 (Message "Order not found"))
       | Some order, Some status' =>
           await _ <- addTrackingUpdate now status' location description order;
           ret (mkResponse 200 (Message "Tracking update added successfully"))
       | Some _, None =>
           (* not reached: the validator rejects an absent status *)
           throw UndefinedValue
       end)
    notFoundOrServerError.

(** *** POST /api/orders/:id/refund *)

Record RefundBody := mkRefundBody {
  rb_amount : option float;
  rb_reason : option string
}.

Definition validateRefund (b : RefundBody) : list string :=
  check (isFloat 0 (rb_amount b)) "Refund amount must be a positive number"
  ++ check (notEmpty (rb_reason b)) "Refund reason is required".

Definition refund (now : Date) (user : ObjectId) (id : option ObjectId)
    (b : RefundBody) : Store -> Response * Store :=
  tryCatch
    (let errors := validateRefund b in
     if negb (bool_decide (errors = []))
     then ret (mkResponse 400 (Errors errors))
     else
       await found <- findById id;
       match found, rb_amount b, rb_reason b with
       | None, _, _ => ret (mkResponse 404 (Message "Order not found"))
       | Some order, Some amount, Some reason =>
           if (total (data order) <? amount)%float
           then ret (mkResponse 400
                       (Message "Refund amount cannot exceed order total"))
           else
             await _ <- processRefund now amount reason user order;
             ret (mkResponse 200 (Message "Refund processed successfully"))
       | Some _, _, _ =>
           (* not reached: the validators reject an absent amount or reason *)
           throw UndefinedValue
       end)
    notFoundOrServerError.

(** *** The order routes as one service, run on a sequence of requests *)

Inductive Request :=
| Create (freshId user : ObjectId) (b : CreateBody)
| UpdateStatus (id : option ObjectId) (b : StatusBody)
| AddTracking (id : option ObjectId) (b : TrackingBody)
| ProcessRefund (user : ObjectId) (id : option ObjectId) (b : RefundBody).

(** A request with what the server sees when it arrives: the clock and
    the designs collection. *)
Record Step := mkStep {
  at_ : Date;
  catalogue : gmap ObjectId Design.t;
  request : Request
}.

Section Service.

Variable isEmail : string -> bool.

Definition handle (s : Step) : Store -> Response * Store :=
  match request s with
  | Create freshId user b => create isEmail (catalogue s) (at_ s) freshId user b
  | UpdateStatus id b => updateStatus (at_ s) id b
  | AddTracking id b => addTracking (at_ s) id b
  | ProcessRefund user id b => refund (at_ s) user id b
  end.

(** Requests served one after the other. *)
Fixpoint run (steps : list Step) (st : Store) : list Response * Store :=
  match steps with
  | [] => ([], st)
  | s :: rest =>
      let '(r, st1) := handle s st in
      let '(rs, st2) := run rest st1 in
      (r :: rs, st2)
  end.

End Service.

(** What serving one request does to the collection [st]: nothing; or
    one stored order is replaced by an order with the same [_id], order
    number and creation time.  The answer is never 201. *)
Inductive Effect (now : Date) (st : Store) (r : Response) (st' : Store) : Prop :=
| Unchanged :
    st' = st -> statusCode r <> 201 -> Effect now st r st'
| Replaced (k : ObjectId) (o o' : Order.t) :
    st !! k = Some o -> st' = <[k := o']> st -> _id o' = k ->
    orderNumber o' = orderNumber o -> createdAt o' = createdAt o ->
    statusCode r <> 201 -> Effect now st r st'.

End Routes.

(** ** Sequences of method calls on one document *)

Module Calls.
Import Order.

Record TrackingCall := mkTrackingCall {
  now : Date;
  status : string;
  location : option string;
  description : option string
}.

(** [addTrackingUpdate] called for each element of [calls], in order. *)
Fixpoint trackAll (calls : list TrackingCall) (d : Doc) : Async Doc :=
  match calls with
  | [] => ret d
  | c :: rest =>
      await d' <- addTrackingUpdate (now c) (status c) (location c) (description c) d;
      trackAll rest d'
  end.

(** The log entry a call appends. *)
Definition entry (c : TrackingCall) : TrackingUpdate.t :=
  TrackingUpdate.mk (status c) (location c) (now c) (description c).

(** The tracking status a sequence of calls leaves. *)
Definition statusAfter (calls : list TrackingCall) (before : option string)
    : option string :=
  match last calls with
  | Some c => Some (status c)
  | None => before
  end.

End Calls.

(** ** The order number as the specification words it *)

Module Spec.

Definition twoDigits (n : Z) : string :=
  String (Js.digitChar (n / 10 mod 10)) (String (Js.digitChar (n mod 10)) "").

Definition threeDigits (n : Z) : string :=
  String (Js.digitChar (n / 100 mod 10)) (twoDigits n).

(** ["ORD"], the 2-digit year, the 2-digit month, the 2-digit day and the
    3-digit daily sequence; [month] is 1-based here. *)
Definition orderNumber (year month day sequence : Z) : string :=
  String.append "ORD"
    (String.append (twoDigits year)
       (String.append (twoDigits month)
          (String.append (twoDigits day) (threeDigits sequence)))).

(** The daily sequence an order number ends in: what follows the three
    letters and the six digits of the date, read as a number. *)
Definition sequenceOf (orderNumber : string) : Z :=
  Js.digitsValue (substring 9 (String.length orderNumber - 9) orderNumber).

(** The last three digits of an order number, read as a number. *)
Definition lastThree (orderNumber : string) : Z :=
  Js.digitsValue (Js.slice (-3) orderNumber).

End Spec.

(** ** Sample data for the worked examples *)

Module Samples.
Import Routes.

(** 2025-01-15, 10:00 local time, and later instants. *)
Definition jan15 (millis : Z) : Date := JsDate.mk 2025 0 15 millis.

Definition morning : Date := jan15 36000000.

Definition noon : Date := jan15 43200000.

Definition evening : Date := jan15 64800000.

Definition designA : Design.t :=
  Design.mk 1%N "Modern Villa 2D Plan" 100%float "published".

Definition designB : Design.t :=
  Design.mk 2%N "Contemporary Office 3D Model" 50%float "published".

Definition designDraft : Design.t :=
  Design.mk 3%N "Garden Pavilion" 75%float "draft".

Definition designs : gmap ObjectId Design.t :=
  <[1%N := designA]> (<[2%N := designB]> (<[3%N := designDraft]> ∅)).

(** A stand-in for validator.js: an address with an at sign. *)
Definition isEmail (s : string) : bool :=
  match String.index 0 "@" s with Some _ => true | None => false end.

Definition billing : Address.t :=
  Address.mk (Some "Ada Lovelace") (Some "ada@example.org") None None None None
             None None.

Definition item (design : ObjectId) (quantity : float) (license : string) : ItemBody :=
  mkItemBody (Some design) (Some quantity) (Some license).

Definition bodyOf (its : list ItemBody) : CreateBody :=
  mkCreateBody (Some its) (Some "stripe") (Some billing) None None.

(** Design A once and design B twice. *)
Definition cart : CreateBody :=
  bodyOf [item 1%N 1%float "personal"; item 2%N 2%float "commercial"].

(** A cart that names a design the catalogue does not have. *)
Definition cartMissing : CreateBody :=
  bodyOf [item 1%N 1%float "personal"; item 9%N 1%float "personal"].

(** A cart with a design that is not published. *)
Definition cartDraft : CreateBody :=
  bodyOf [item 3%N 1%float "personal"].

Definition customer : ObjectId := 70%N.

Definition admin : ObjectId := 71%N.

(** The order items of the cart, at the prices of the catalogue. *)
Definition cartLines : list Item.t :=
  [Item.mk 1%N 1%float 100%float "personal";
   Item.mk 2%N 2%float 50%float "commercial"].

(** A stored order: what the cart asks for, as the first order of its
    day. *)
Definition placed : Order.t :=
  Order.mk 100%N (Some "ORD250115001") customer
    [Item.mk 1%N 1%float 100%float "personal";
     Item.mk 2%N 2%float 50%float "commercial"]
    200%float 17%float 217%float "USD" "pending" "pending" "stripe"
    (PaymentDetails.mk None None None) billing billing None
    (Tracking.mk None None None []) [] None (Some morning) (Some morning).

Definition oneOrder : gmap ObjectId Order.t := <[100%N := placed]> ∅.

(** The order of the cart again, stored as the order number [i + 1] of
    the day, a millisecond after the one before, under its own [_id]. *)
Definition orderOfDay (i : nat) : Order.t :=
  Order.mk (N.of_nat (1000 + i))
    (Some (Order.numberWith morning (Z.of_nat i + 1))) customer cartLines
    200%float 17%float 217%float "USD" "pending" "pending" "stripe"
    (PaymentDetails.mk None None None) billing billing None
    (Tracking.mk None None None []) [] None
    (Some (jan15 (36000000 + Z.of_nat i)))
    (Some (jan15 (36000000 + Z.of_nat i))).

(** A collection with [k] orders of 2025-01-15. *)
Definition fullDay (k : nat) : gmap ObjectId Order.t :=
  list_to_map (map (fun i => (N.of_nat (1000 + i), orderOfDay i)) (seq 0 k)).

(** The document the create route builds from the cart. *)
Definition cartDoc (freshId : ObjectId) : Order.Doc :=
  built freshId customer cart cartLines "stripe" billing.

End Samples.

(** ** What a stored order keeps *)

Module Kept.
Import Order.

(** Two orders agree on what was bought, for how much, by whom and when:
    on every path but [status], [paymentStatus], [tracking], [refund] and
    the time of the last save. *)
Definition samePurchase (o o' : t) : Prop :=
  _id o' = _id o /\ orderNumber o' = orderNumber o /\
  customer o' = customer o /\ items o' = items o /\
  subtotal o' = subtotal o /\ tax o' = tax o /\ total o' = total o /\
  currency o' = currency o /\ paymentMethod o' = paymentMethod o /\
  paymentDetails o' = paymentDetails o /\
  billingAddress o' = billingAddress o /\
  shippingAddress o' = shippingAddress o /\ notes o' = notes o /\
  downloads o' = downloads o /\ createdAt o' = createdAt o.

(** The three amounts of an order fit its items, as the create route
    computes them. *)
Definition totalsOk (o : t) : Prop :=
  subtotal o = sumFrom 0%float (items o) /\
  tax o = (subtotal o * Routes.taxRate)%float /\
  total o = (subtotal o + tax o)%float.

(** The years [100 * c .. 100 * c + 99]. *)
Definition inCentury (c : Z) (t : Date) : Prop :=
  100 * c <= JsDate.getFullYear t < 100 * c + 100.

(** The calendar day of [a] is before the calendar day of [b]. *)
Definition dayBefore (a b : Date) : Prop :=
  JsDate.getFullYear a < JsDate.getFullYear b \/
  JsDate.getFullYear a = JsDate.getFullYear b /\
  (JsDate.getMonth a < JsDate.getMonth b \/
   JsDate.getMonth a = JsDate.getMonth b /\ JsDate.getDate a < JsDate.getDate b).

(** What serving one request at [now] does to the collection, seen from
    the purchase data: nothing; or one stored order is replaced by one
    with the same purchase data. *)
Inductive Change (now : Date) (st st' : Store) : Prop :=
| Same : st' = st -> Change now st st'
| Touched (k : ObjectId) (o o' : t) :
    st !! k = Some o -> st' = <[k := o']> st -> samePurchase o o' ->
    Change now st st'.

(** Every stored order carries an order number of the hook, for the day
    it was created on and a sequence number within the count of that day. *)
Definition numbered (c : Z) (st : Store) : Prop :=
  forall k o, st !! k = Some o ->
    exists t n,
      createdAt o = Some t /\ JsDate.valid t /\ inCentury c t /\
      orderNumber o = Some (numberWith t n) /\
      1 <= n <= Z.of_nat (orderCount t st).

End Kept.

(** ** GET /api/orders/:id *)

Module User.
(** Modelled from the spec: the user the auth gate resolves a credential
    to, an identity and a role ([customer] or [admin]); models/User.js and
    middleware/auth.js are not among the sources. *)
Record t := mk {
  _id : ObjectId;
  role : string
}.
End User.

Module Reads.
Import Order.

(** What the route answers with: the order with its customer and the
    designs of its items populated, or a message. *)
Inductive Json :=
| OrderJson (order : Order.t) (customer : User.t)
            (designs : list (option Design.t))
| MessageJson (message : string).

Record Reply := mkReply {
  code : Z;
  json : Json
}.

Definition tryCatch (body : Async Reply) (handler : Thrown -> Reply)
    (st : Store) : Reply * Store :=
  match body st with
  | Returned r st' => (r, st')
  | Threw e st' => (handler e, st')
  end.

Section GetOrder.

(** The users and designs collections, which [populate] reads. *)
Variable users : gmap ObjectId User.t.
Variable designs : gmap ObjectId Design.t.

(** [.populate('items.design', ...)]: each item's design, or null. *)
Definition populateDesigns (o : Order.t) : list (option Design.t) :=
  map (fun it => designs !! Item.design it) (items o).

Definition getOrder (reqUser : User.t) (id : option ObjectId)
    : Store -> Reply * Store :=
  tryCatch
    (await found <- findById id;
     match found with
     | None => ret (mkReply 404 (MessageJson "Order not found"))
     | Some order =>
         (* [.populate('customer', ...)]: the customer, or null; reading
            [order.customer._id] of null throws *)
         match users !! customer (data order) with
         | None => throw UndefinedValue
         | Some owner =>
             if negb (N.eqb (User._id owner) (User._id reqUser))
                && negb (String.eqb (User.role reqUser) "admin")
             then ret (mkReply 403 (MessageJson "Access denied"))
             else ret (mkReply 200
                         (OrderJson (data order) owner
                                    (populateDesigns (data order))))
         end
     end)
    (fun e =>
       match e with
       | CastError_ObjectId => mkReply 404 (MessageJson "Order not found")
       | _ => mkReply 500 (MessageJson "Server error")
       end).

End GetOrder.

End Reads.

(** ** More sample data *)

Module MoreSamples.
Import Routes.

(** The last millisecond of 2024 and the first of 2025. *)
Definition newYearsEve : Date := JsDate.mk 2024 11 31 86399999.

Definition newYearsDay : Date := JsDate.mk 2025 0 1 0.

(** The last day of February in a leap year, and the day after. *)
Definition leapDay : Date := JsDate.mk 2024 1 29 43200000.

Definition marchFirst : Date := JsDate.mk 2024 2 1 0.

Definition ada : User.t := User.mk Samples.customer "customer".

Definition bob : User.t := User.mk 72%N "customer".

Definition root : User.t := User.mk Samples.admin "admin".

Definition users : gmap ObjectId User.t :=
  <[Samples.customer := ada]> (<[72%N := bob]> (<[Samples.admin := root]> ∅)).

(** An order of a customer who is no longer among the users. *)
Definition orphan : Order.t :=
  Order.mk 200%N (Some "ORD250115002") 99%N [] 0%float 0%float 0%float "USD"
    "pending" "pending" "stripe" (PaymentDetails.mk None None None)
    Samples.billing Samples.billing None (Tracking.mk None None None []) []
    None (Some Samples.morning) (Some Samples.morning).

Definition twoOrders : gmap ObjectId Order.t :=
  <[200%N := orphan]> Samples.oneOrder.

End MoreSamples.

(** * Properties *)

(** Unfolds a route down to its awaited calls. *)
Ltac run_route :=
  unfold Routes.tryCatch, Order.bind, Order.ret, Order.throw, Order.findById;
  simpl.

(** ** Strings and numbers *)

Module JsFacts.
Import Js.

Example toString_2025 : toString 2025 = "2025".
Proof. reflexivity. Qed.

Example toString_negative : toString (-40) = "-40".
Proof. reflexivity. Qed.

Example slice_last_two : slice (-2) "2025" = "25".
Proof. reflexivity. Qed.

Example slice_short : slice (-2) "7" = "7".
Proof. reflexivity. Qed.

Example padStart_7 : padStart 3 "0" (toString 7) = "007".
Proof. reflexivity. Qed.

Example padStart_1000 : padStart 3 "0" (toString 1000) = "1000".
Proof. reflexivity. Qed.

Example trim_both : trim "  Berlin hub  " = "Berlin hub".
Proof. reflexivity. Qed.

Example test_sample : test_ORD_d8 "ORD250115007" = true.
Proof. reflexivity. Qed.

Example test_too_short : test_ORD_d8 "ORD2501150" = false.
Proof. reflexivity. Qed.

Lemma append_nil_l (s : string) : "" +:+ s = s.
Proof. reflexivity. Qed.

Lemma append_cons (x : ascii) (a b : string) :
  String x a +:+ b = String x (a +:+ b).
Proof. reflexivity. Qed.

Lemma append_assoc (a b c : string) : (a +:+ b) +:+ c = a +:+ (b +:+ c).
Proof.
  induction a as [|x a IH]; [reflexivity|].
  now rewrite !append_cons, IH.
Qed.

Lemma append_nil_r (a : string) : a +:+ "" = a.
Proof.
  induction a as [|x a IH]; [reflexivity|].
  now rewrite append_cons, IH.
Qed.

Lemma length_append (a b : string) :
  String.length (a +:+ b) = (String.length a + String.length b)%nat.
Proof.
  induction a as [|x a IH]; [reflexivity|].
  rewrite append_cons. simpl. now rewrite IH.
Qed.

Lemma substring_all (s : string) : substring 0 (String.length s) s = s.
Proof. induction s as [|x s IH]; simpl; [reflexivity | now rewrite IH]. Qed.

Lemma substring_skip (a s : string) (m : nat) :
  substring (String.length a) m (a +:+ s) = substring 0 m s.
Proof.
  induction a as [|x a IH]; [reflexivity|].
  rewrite append_cons. simpl. exact IH.
Qed.

Lemma substring_prefix (a s : string) :
  substring 0 (String.length a) (a +:+ s) = a.
Proof.
  induction a as [|x a IH]; [now destruct s|].
  rewrite append_cons. simpl. now rewrite IH.
Qed.

(** The last characters of a string, when they are known. *)
Lemma slice_suffix (a s : string) :
  s <> "" -> slice (- Z.of_nat (String.length s)) (a +:+ s) = s.
Proof.
  intros Hs. unfold slice. rewrite length_append.
  destruct (String.length s) as [|k] eqn:Hk; [now destruct s|].
  replace (- Z.of_nat (S k) <? 0) with true by (symmetry; apply Z.ltb_lt; lia).
  rewrite Z.max_l by lia.
  replace (Z.to_nat (Z.of_nat (String.length a + S k) + - Z.of_nat (S k)))
    with (String.length a) by lia.
  replace (Z.to_nat (Z.of_nat (String.length a + S k)
                     - (Z.of_nat (String.length a + S k) + - Z.of_nat (S k))))
    with (String.length s) by lia.
  rewrite substring_skip. apply substring_all.
Qed.

Lemma digitChar_value (d : Z) :
  0 <= d <= 9 -> Z.of_N (N_of_ascii (digitChar d)) - 48 = d.
Proof.
  intros H.
  assert (Hd : d = 0 \/ d = 1 \/ d = 2 \/ d = 3 \/ d = 4 \/ d = 5 \/ d = 6
               \/ d = 7 \/ d = 8 \/ d = 9) by lia.
  repeat (destruct Hd as [-> | Hd]; [reflexivity|]). now subst.
Qed.

Lemma isDigit_digitChar (d : Z) : 0 <= d <= 9 -> isDigit (digitChar d) = true.
Proof.
  intros H.
  assert (Hd : d = 0 \/ d = 1 \/ d = 2 \/ d = 3 \/ d = 4 \/ d = 5 \/ d = 6
               \/ d = 7 \/ d = 8 \/ d = 9) by lia.
  repeat (destruct Hd as [-> | Hd]; [reflexivity|]). now subst.
Qed.

Lemma mod10_digit (n : Z) : 0 <= n mod 10 <= 9.
Proof. pose proof (Z.mod_pos_bound n 10); lia. Qed.

Create HintDb js.
#[local] Hint Resolve mod10_digit isDigit_digitChar andb_true_intro conj : js.

(** The accumulator of [digitsAcc] is only ever a suffix. *)
Lemma digitsAcc_acc (f : nat) (n : Z) (acc : string) :
  digitsAcc f n acc = digitsAcc f n "" +:+ acc.
Proof.
  revert n acc. induction f as [|f IH]; intros n acc; simpl.
  - reflexivity.
  - destruct (n / 10 =? 0); [reflexivity|].
    rewrite IH, (IH _ (String _ "")), append_assoc. reflexivity.
Qed.

(** One step of [digitsAcc] on a number of two digits or more. *)
Lemma digitsAcc_step (f : nat) (n : Z) :
  10 <= n ->
  digitsAcc (S f) n "" =
  digitsAcc f (n / 10) "" +:+ String (digitChar (n mod 10)) "".
Proof.
  intros Hn. simpl.
  destruct (n / 10 =? 0) eqn:E.
  - apply Z.eqb_eq in E. assert (1 <= n / 10) by (apply Z.div_le_lower_bound; lia). lia.
  - apply digitsAcc_acc.
Qed.

(** Every run of [digitsAcc] ends in the last digit of its number. *)
Lemma digitsAcc_last (f : nat) (n : Z) :
  exists pre,
    digitsAcc f n "" = pre +:+ String (digitChar (n mod 10)) "".
Proof.
  destruct f as [|f]; simpl.
  - now exists "".
  - destruct (n / 10 =? 0).
    + now exists "".
    + exists (digitsAcc f (n / 10) ""). apply digitsAcc_acc.
Qed.

Lemma allChars_append (p : ascii -> bool) (a b : string) :
  allChars p (a +:+ b) = allChars p a && allChars p b.
Proof.
  induction a as [|x a IH]; [reflexivity|].
  rewrite append_cons. simpl. now rewrite IH, andb_assoc.
Qed.

Lemma digitsAcc_digits (f : nat) (n : Z) (acc : string) :
  allChars isDigit acc = true -> allChars isDigit (digitsAcc f n acc) = true.
Proof.
  revert n acc. induction f as [|f IH]; intros n acc Hacc; simpl.
  - rewrite Hacc. auto with js.
  - destruct (n / 10 =? 0).
    + simpl. rewrite Hacc. auto with js.
    + apply IH. simpl. rewrite Hacc. auto with js.
Qed.

Lemma toString_digits (n : Z) : 0 <= n -> allChars isDigit (toString n) = true.
Proof.
  intros Hn. unfold toString.
  replace (n <? 0) with false by (symmetry; apply Z.ltb_ge; lia).
  now apply digitsAcc_digits.
Qed.

Lemma digitsValueAcc_append (a b : string) (v : Z) :
  digitsValueAcc (a +:+ b) v = digitsValueAcc b (digitsValueAcc a v).
Proof.
  revert v. induction a as [|x a IH]; intros v; [reflexivity|].
  rewrite append_cons. simpl. apply IH.
Qed.

(** With enough fuel the digits denote the number. *)
Lemma digitsAcc_value (f : nat) (n : Z) :
  0 <= n < 2 ^ (Z.of_nat f + 1) ->
  digitsValueAcc (digitsAcc f n "") 0 = n.
Proof.
  revert n. induction f as [|f IH]; intros n Hn.
  - simpl in *. rewrite digitChar_value by apply mod10_digit.
    rewrite Z.mod_small; lia.
  - destruct (Z_lt_le_dec n 10) as [Hlt | Hge].
    + simpl. replace (n / 10 =? 0) with true
        by (symmetry; apply Z.eqb_eq, Z.div_small; lia).
      simpl. rewrite digitChar_value by apply mod10_digit.
      rewrite Z.mod_small; lia.
    + rewrite digitsAcc_step by assumption.
      rewrite digitsValueAcc_append, IH.
      * simpl. rewrite digitChar_value by apply mod10_digit.
        pose proof (Z.div_mod n 10). lia.
      * split; [apply Z.div_pos; lia|].
        apply Z.div_lt_upper_bound; [lia|].
        replace (Z.of_nat (S f) + 1) with (Z.succ (Z.of_nat f + 1)) in Hn by lia.
        rewrite Z.pow_succ_r in Hn by lia. lia.
Qed.

Lemma toString_value (n : Z) : 0 <= n -> digitsValue (toString n) = n.
Proof.
  intros Hn. unfold toString, digitsValue.
  replace (n <? 0) with false by (symmetry; apply Z.ltb_ge; lia).
  destruct (Z.eq_dec n 0) as [-> | Hne]; [reflexivity|].
  apply digitsAcc_value.
  rewrite Z2Nat.id by apply Z.log2_nonneg.
  pose proof (Z.log2_spec n). rewrite <- Z.add_1_r in *. lia.
Qed.

Lemma repeatChar_zero_value (k : nat) (s : string) :
  digitsValue (repeatChar "0" k +:+ s) = digitsValue s.
Proof.
  induction k as [|k IH]; [reflexivity|].
  simpl repeatChar. rewrite append_cons. exact IH.
Qed.

(** Padding with zeros keeps the number. *)
Lemma padStart_value (w : nat) (n : Z) :
  0 <= n -> digitsValue (padStart w "0" (toString n)) = n.
Proof.
  intros Hn. unfold padStart. rewrite repeatChar_zero_value.
  now apply toString_value.
Qed.

Lemma padStart_digits (w : nat) (n : Z) :
  0 <= n -> allChars isDigit (padStart w "0" (toString n)) = true.
Proof.
  intros Hn. unfold padStart. rewrite allChars_append, toString_digits by assumption.
  rewrite andb_true_r. induction (w - String.length (toString n))%nat; simpl; auto.
Qed.

Lemma digitsAcc_nonempty (f : nat) (n : Z) (acc : string) :
  (1 <= String.length (digitsAcc f n ""))%nat.
Proof.
  destruct (digitsAcc_last f n) as [pre ->].
  rewrite length_append. simpl. lia.
Qed.

Lemma length_repeatChar (c : ascii) (k : nat) : String.length (repeatChar c k) = k.
Proof. induction k as [|k IH]; simpl; [reflexivity | now rewrite IH]. Qed.

Lemma length_padStart (w : nat) (c : ascii) (s : string) :
  String.length (padStart w c s) = Nat.max w (String.length s).
Proof. unfold padStart. rewrite length_append, length_repeatChar. lia. Qed.

(** A string that is long enough is left alone. *)
Lemma padStart_long (w : nat) (c : ascii) (s : string) :
  (w <= String.length s)%nat -> padStart w c s = s.
Proof.
  intros H. unfold padStart.
  now replace (w - String.length s)%nat with 0%nat by lia.
Qed.

(** Below one hundred, padding to two gives the two digits. *)
Lemma padStart2_twoDigits (n : Z) :
  0 <= n < 100 -> padStart 2 "0" (toString n) = Spec.twoDigits n.
Proof.
  intros Hn.
  assert (Hall : forallb (fun k => String.eqb
                   (padStart 2 "0" (toString (Z.of_nat k)))
                   (Spec.twoDigits (Z.of_nat k))) (seq 0 100) = true)
    by (vm_compute; reflexivity).
  rewrite forallb_forall in Hall. specialize (Hall (Z.to_nat n)).
  rewrite Z2Nat.id in Hall by lia.
  apply String.eqb_eq, Hall, in_seq. lia.
Qed.

(** Below one thousand, padding to three gives the three digits. *)
Lemma padStart3_threeDigits (n : Z) :
  0 <= n < 1000 -> padStart 3 "0" (toString n) = Spec.threeDigits n.
Proof.
  intros Hn.
  assert (Hall : forallb (fun k => String.eqb
                   (padStart 3 "0" (toString (Z.of_nat k)))
                   (Spec.threeDigits (Z.of_nat k))) (seq 0 1000) = true)
    by (vm_compute; reflexivity).
  rewrite forallb_forall in Hall. specialize (Hall (Z.to_nat n)).
  rewrite Z2Nat.id in Hall by lia.
  apply String.eqb_eq, Hall, in_seq. lia.
Qed.

Lemma log2_fuel (n : Z) : 8 <= n -> exists f, Z.to_nat (Z.log2 n) = S (S (S f)).
Proof.
  intros Hn. pose proof (Z.log2_le_mono 8 n Hn) as H.
  change (Z.log2 8) with 3 in H.
  exists (Z.to_nat (Z.log2 n) - 3)%nat. lia.
Qed.

(** The last two characters of a number with two digits or more. *)
Lemma slice2_twoDigits (n : Z) :
  10 <= n -> slice (-2) (toString n) = Spec.twoDigits n.
Proof.
  intros Hn. unfold toString.
  replace (n <? 0) with false by (symmetry; apply Z.ltb_ge; lia).
  destruct (log2_fuel n) as [f ->]; [lia|].
  rewrite digitsAcc_step by assumption.
  destruct (digitsAcc_last (S (S f)) (n / 10)) as [pre ->].
  rewrite append_assoc.
  apply (slice_suffix pre (Spec.twoDigits n)). discriminate.
Qed.

(** From one thousand on, the padded sequence is the number itself, with
    four digits or more. *)
Lemma padStart3_overflow (n : Z) :
  1000 <= n ->
  padStart 3 "0" (toString n) = toString n /\
  (4 <= String.length (toString n))%nat.
Proof.
  intros Hn.
  assert (Hlen : (4 <= String.length (toString n))%nat).
  { unfold toString.
    replace (n <? 0) with false by (symmetry; apply Z.ltb_ge; lia).
    destruct (log2_fuel n) as [f ->]; [lia|].
    assert (100 <= n / 10) by (apply Z.div_le_lower_bound; lia).
    assert (10 <= n / 10 / 10) by (apply Z.div_le_lower_bound; lia).
    rewrite digitsAcc_step by lia.
    rewrite digitsAcc_step by lia.
    rewrite digitsAcc_step by lia.
    rewrite !length_append. simpl.
    pose proof (digitsAcc_nonempty f (n / 10 / 10 / 10) ""). lia. }
  split; [|exact Hlen]. apply padStart_long. lia.
Qed.

Lemma isDigit_twoDigits (n : Z) : allChars isDigit (Spec.twoDigits n) = true.
Proof. unfold Spec.twoDigits. simpl. rewrite !isDigit_digitChar; auto with js. Qed.

Lemma test_ORD_d8_here (s : string) :
  matchesHere_ORD_d8 s = true -> test_ORD_d8 s = true.
Proof. intros H. destruct s; cbn [test_ORD_d8]; rewrite H; reflexivity. Qed.

(** A string that starts with ORD, six digits and two more digits matches
    the pattern. *)
Lemma test_ORD_d8_intro (a b c rest : string) :
  String.length a = 2%nat -> String.length b = 2%nat -> String.length c = 2%nat ->
  (2 <= String.length rest)%nat ->
  allChars isDigit a = true -> allChars isDigit b = true ->
  allChars isDigit c = true -> allChars isDigit rest = true ->
  test_ORD_d8 ("ORD" +:+ a +:+ b +:+ c +:+ rest) = true.
Proof.
  intros La Lb Lc Lr Da Db Dc Dr.
  destruct a as [|a1 [|a2 [|]]]; try discriminate.
  destruct b as [|b1 [|b2 [|]]]; try discriminate.
  destruct c as [|c1 [|c2 [|]]]; try discriminate.
  destruct rest as [|r1 [|r2 rest]]; simpl in Lr; try lia.
  simpl in Da, Db, Dc, Dr.
  repeat match goal with
         | H : _ && _ = true |- _ => apply andb_prop in H; destruct H
         end.
  apply test_ORD_d8_here. unfold matchesHere_ORD_d8.
  repeat (rewrite ?append_cons, ?append_nil_l).
  cbn [substring String.length Nat.eqb String.eqb allChars].
  rewrite !Ascii.eqb_refl.
  repeat match goal with H : isDigit _ = true |- _ => rewrite H; clear H end.
  destruct rest; reflexivity.
Qed.

End JsFacts.

(** ** The calendar *)

Module DateFacts.
Import JsDate.

Ltac by_compare :=
  repeat match goal with
         | |- context [?a ?= ?b] => destruct (Z.compare_spec a b)
         | H : context [?a ?= ?b] |- _ => destruct (Z.compare_spec a b)
         end;
  simpl in *; try discriminate; try reflexivity; try lia.

Lemma ymd_plain (y m d : Z) :
  1970 <= y -> d <= daysInMonth y m -> ymd y m d = mk y m d 0.
Proof.
  intros Hy Hd. unfold ymd.
  replace ((0 <=? y) && (y <=? 99)) with false
    by (symmetry; apply andb_false_iff; right; apply Z.leb_gt; lia).
  now replace (d <=? daysInMonth y m) with true by (symmetry; apply Z.leb_le; lia).
Qed.

(** The day after [d]: the next day of the month, the first of the next
    month, or the first of January. *)
Lemma ymd_next (y m d : Z) :
  1970 <= y -> d <= daysInMonth y m ->
  ymd y m (d + 1) =
  if d + 1 <=? daysInMonth y m then mk y m (d + 1) 0
  else if m <? 11 then mk y (m + 1) (d + 1 - daysInMonth y m) 0
       else mk (y + 1) 0 (d + 1 - daysInMonth y m) 0.
Proof.
  intros Hy Hd. unfold ymd.
  now replace ((0 <=? y) && (y <=? 99)) with false
    by (symmetry; apply andb_false_iff; right; apply Z.leb_gt; lia).
Qed.

Lemma leb_iff (a b : Date) :
  leb a b = true <->
  getFullYear a < getFullYear b \/
  getFullYear a = getFullYear b /\
  (getMonth a < getMonth b \/
   getMonth a = getMonth b /\
   (getDate a < getDate b \/
    getDate a = getDate b /\ getMillis a <= getMillis b)).
Proof. unfold leb, compare. split; intros H; by_compare. Qed.

Lemma ltb_iff (a b : Date) :
  ltb a b = true <->
  getFullYear a < getFullYear b \/
  getFullYear a = getFullYear b /\
  (getMonth a < getMonth b \/
   getMonth a = getMonth b /\
   (getDate a < getDate b \/
    getDate a = getDate b /\ getMillis a < getMillis b)).
Proof. unfold ltb, compare. split; intros H; by_compare. Qed.

(** The hook's interval is the calendar day of [now]: an instant lies in
    it exactly when it has the year, month and day of [now]. *)
Lemma window_sameDay (now t : Date) :
  valid now -> valid t ->
  leb (Order.todayStart now) t && ltb t (Order.todayEnd now) = true <->
  sameDay t now.
Proof.
  intros (Hy & Hm & Hd & Hms) (Hy' & Hm' & Hd' & Hms').
  unfold Order.todayStart, Order.todayEnd.
  rewrite ymd_plain, ymd_next by lia.
  rewrite andb_true_iff, leb_iff, ltb_iff.
  destruct now as [y m d ms], t as [y' m' d' ms']. unfold sameDay. simpl in *.
  destruct (Z.eq_dec y' y) as [-> | Hny], (Z.eq_dec m' m) as [-> | Hnm];
    destruct (d + 1 <=? daysInMonth y m) eqn:E1, (m <? 11) eqn:E2; simpl;
    try (apply Z.leb_gt in E1); try (apply Z.leb_le in E1);
    try (apply Z.ltb_lt in E2); try (apply Z.ltb_ge in E2); lia.
Qed.

End DateFacts.

(** ** The collection and [save] *)

Module StoreFacts.
Import Order.

(** Counting after an insert under a new [_id]. *)
Lemma countDocuments_insert_new (p : t -> bool) (st : Store) (k : ObjectId) (o : t) :
  st !! k = None ->
  countDocuments p (<[k := o]> st) =
  if p o then S (countDocuments p st) else countDocuments p st.
Proof.
  intros Hk. unfold countDocuments. destruct (p o) eqn:E.
  - rewrite map_filter_insert_True by exact E.
    apply map_size_insert_None, map_lookup_filter_None. now left.
  - rewrite map_filter_insert_False by (simpl; congruence).
    now rewrite delete_id.
Qed.

(** Counting after a document was replaced by one the filter treats alike. *)
Lemma countDocuments_replace (p : t -> bool) (st : Store) (k : ObjectId) (o o' : t) :
  st !! k = Some o -> p o' = p o ->
  countDocuments p (<[k := o']> st) = countDocuments p st.
Proof.
  intros Hk Hp. unfold countDocuments. destruct (p o') eqn:E.
  - rewrite map_filter_insert_True by exact E.
    apply map_size_insert_Some. exists o.
    apply map_lookup_filter_Some. split; [exact Hk | simpl; congruence].
  - rewrite map_filter_insert_False by (simpl; congruence).
    rewrite map_filter_delete, delete_id; [reflexivity|].
    apply map_lookup_filter_None. right. intros o0 Ho0. simpl.
    rewrite Hk in Ho0. injection Ho0 as <-. congruence.
Qed.

Lemma wf_insert (st : Store) (o : t) : wf st -> wf (<[_id o := o]> st).
Proof.
  intros Hwf k o' Hk. destruct (decide (_id o = k)) as [<- | Hne].
  - rewrite lookup_insert_eq in Hk. congruence.
  - rewrite lookup_insert_ne in Hk by exact Hne. now apply Hwf.
Qed.

(** The hook writes [numberFor]. *)
Lemma preSave_new (now : Date) (o : t) (st : Store) :
  preSave now (mkDoc true o) st =
  Returned (mkDoc true (set_orderNumber (Some (numberFor now st)) o)) st.
Proof.
  unfold preSave, modify. cbn [isNew data]. cbv zeta.
  unfold numberFor, numberWith, nextSequence, orderCount, todayStart, todayEnd,
    datePart.
  cbv zeta. now rewrite !JsFacts.append_assoc.
Qed.

(** A new document without order number fails the validation, before the
    hook can give it one: its first save throws and writes nothing. *)
Lemma save_unnumbered (now : Date) (d : Doc) (st : Store) :
  isNew d = true -> orderNumber (data d) = None ->
  save now d st = Threw ValidationError st.
Proof.
  destruct d as [n o]. simpl. intros -> Hnone.
  unfold save, bind, validate, validates. simpl. now rewrite Hnone.
Qed.

(** The index finds no stored order with the number [n]. *)
Lemma numberHeld_false (n : option string) (st : Store) :
  numberHeld n st = false <->
  forall k o, st !! k = Some o -> orderNumber o <> n.
Proof.
  unfold numberHeld. rewrite negb_false_iff, Nat.eqb_eq, map_size_empty_iff.
  rewrite map_empty_filter. unfold map_Forall. simpl. reflexivity.
Qed.

(** The first save of a document that passes the validators, under an
    [_id] and with an order number the collection does not have. *)
Lemma save_new (now : Date) (d : Doc) (st : Store) :
  isNew d = true -> validates (data d) = true ->
  st !! _id (data d) = None ->
  numberHeld (Some (numberFor now st)) st = false ->
  let o := set_updatedAt (Some now)
             (set_createdAt (Some now)
                (set_orderNumber (Some (numberFor now st)) (data d))) in
  save now d st = Returned (mkDoc false o) (<[_id (data d) := o]> st).
Proof.
  destruct d as [n o0]. simpl. intros -> Hvalid Hfree Hheld.
  unfold save, bind, validate. cbn [isNew data]. rewrite Hvalid.
  cbn [negb andb]. rewrite preSave_new.
  unfold stamp, write, modify. simpl. now rewrite Hfree, Hheld.
Qed.

(** What the methods and the status route assign to a document that
    passes the validators leaves a document that passes them. *)
Lemma validates_kept (o : t) :
  validates o = true ->
  (forall now, validates (set_updatedAt now o) = true) /\
  (forall now s loc descr, validates (pushUpdate now s loc descr o) = true) /\
  (forall now amount reason by_,
     validates (markRefunded now amount reason by_ o) = true) /\
  (forall s, oneOf statusEnum s = true -> validates (set_status s o) = true) /\
  (forall s, oneOf paymentStatusEnum s = true ->
             validates (set_paymentStatus s o) = true).
Proof.
  unfold validates. rewrite !andb_true_iff. simpl.
  intros ((((Hn & Hl) & Hs) & Hp) & Hm).
  repeat split; intros;
    rewrite ?andb_true_iff; repeat split; auto.
Qed.

(** A later save of a document. *)
Lemma save_existing (now : Date) (o : t) (st : Store) :
  let o' := set_updatedAt (Some now) o in
  save now (mkDoc false o) st = Returned (mkDoc false o') (<[_id o := o']> st).
Proof. reflexivity. Qed.

End StoreFacts.

(** ** Numbers *)

Module FloatFacts.

Lemma SFcompare_swap (x y : spec_float) :
  SFcompare y x = option_map CompOpp (SFcompare x y).
Proof.
  destruct x as [sx | sx | | sx mx ex], y as [sy | sy | | sy my ey]; simpl;
    try destruct sx; try destruct sy; try reflexivity;
    rewrite (Z.compare_antisym ex ey);
    destruct (ex ?= ey); simpl; try reflexivity; f_equal.
  - rewrite CompOpp_involutive. exact (Pos.compare_cont_antisym my mx Eq).
  - symmetry. exact (Pos.compare_cont_antisym mx my Eq).
Qed.

(** [a <= b] excludes [b < a], as the refund route reads it. *)
Lemma leb_not_gt (a b : float) : (a <=? b)%float = true -> (b <? a)%float = false.
Proof.
  rewrite leb_spec, ltb_spec. unfold SFleb, SFltb.
  rewrite (SFcompare_swap (Prim2SF a) (Prim2SF b)).
  now destruct (SFcompare (Prim2SF a) (Prim2SF b)) as [[ | | ] | ].
Qed.

End FloatFacts.

(** ** Validators *)

Module ValidatorFacts.
Import Routes.

Example isInt_two : isInt 1 (Some 2%float) = true.
Proof. reflexivity. Qed.

Example isInt_half : isInt 1 (Some 0.5%float) = false.
Proof. reflexivity. Qed.

Example isInt_zero : isInt 1 (Some 0%float) = false.
Proof. reflexivity. Qed.

Example isInt_absent : isInt 1 None = false.
Proof. reflexivity. Qed.

Example isFloat_zero : isFloat 0 (Some 0%float) = true.
Proof. reflexivity. Qed.

Example isFloat_negative : isFloat 0 (Some (-1)%float) = false.
Proof. reflexivity. Qed.

Example isFloat_nan : isFloat 0 (Some nan) = false.
Proof. reflexivity. Qed.

Lemma check_nil (ok : bool) (msg : string) : check ok msg = [] <-> ok = true.
Proof. destruct ok; simpl; split; congruence. Qed.

Lemma isIn_In (values : list string) (v : option string) :
  isIn values v = true <-> exists s, v = Some s /\ In s values.
Proof.
  destruct v as [s|]; simpl.
  - rewrite existsb_exists. split.
    + intros (x & Hx & E). apply String.eqb_eq in E. subst. eauto.
    + intros (x & [= ->] & Hx). exists x. split; [exact Hx | apply String.eqb_refl].
  - split; [discriminate | intros (s & H & _); discriminate].
Qed.

Lemma notEmpty_spec (v : option string) :
  notEmpty v = true <-> exists s, v = Some s /\ s <> "".
Proof.
  destruct v as [s|]; simpl.
  - rewrite negb_true_iff, String.eqb_neq. split; [eauto|].
    now intros (x & [= ->] & Hx).
  - split; [discriminate | intros (s & H & _); discriminate].
Qed.

Lemma validateRefund_nil (b : RefundBody) :
  validateRefund b = [] <->
  isFloat 0 (rb_amount b) = true /\ notEmpty (rb_reason b) = true.
Proof.
  unfold validateRefund. rewrite app_nil, !check_nil. reflexivity.
Qed.

Lemma validateStatus_nil (b : StatusBody) :
  validateStatus b = [] <->
  isIn statuses (sb_status b) = true /\
  optional (isIn paymentStatuses) (sb_paymentStatus b) = true.
Proof.
  unfold validateStatus. rewrite app_nil, !check_nil. reflexivity.
Qed.

Lemma validateTracking_nil (b : TrackingBody) :
  validateTracking b = [] <-> notEmpty (tb_status b) = true.
Proof. apply check_nil. Qed.

End ValidatorFacts.

(** ** Refunds *)

Module RefundFacts.
Import Order Routes ValidatorFacts.

(** What [markRefunded] writes and what it leaves. *)
Lemma markRefunded_fields (now : Date) (amount : float) (reason : string)
    (by_ : ObjectId) (o : t) :
  let o' := markRefunded now amount reason by_ o in
  Order.refund o' = Some (Refund.mk amount reason now by_) /\
  status o' = "refunded" /\ paymentStatus o' = "refunded" /\
  _id o' = _id o /\ createdAt o' = createdAt o /\ sameButRefund o o'.
Proof. unfold sameButRefund. now repeat split. Qed.

Lemma processRefund_existing (now : Date) (amount : float) (reason : string)
    (by_ : ObjectId) (o : t) (st : Store) :
  let o' := set_updatedAt (Some now) (markRefunded now amount reason by_ o) in
  processRefund now amount reason by_ (mkDoc false o) st =
  Returned (mkDoc false o') (<[_id o := o']> st).
Proof. reflexivity. Qed.

(** A request the validators reject changes nothing. *)
Lemma refund_invalid (now : Date) (user : ObjectId) (id : option ObjectId)
    (b : RefundBody) (st : Store) :
  validateRefund b <> [] ->
  Routes.refund now user id b st = (mkResponse 400 (Errors (validateRefund b)), st).
Proof.
  intros H. unfold Routes.refund. run_route.
  now rewrite bool_decide_eq_false_2.
Qed.

(** A valid request for an amount above the total changes nothing. *)
Lemma refund_too_much (now : Date) (user id : ObjectId) (b : RefundBody)
    (st : Store) (o : t) (amount : float) :
  validateRefund b = [] -> st !! id = Some o -> rb_amount b = Some amount ->
  (total o <? amount)%float = true ->
  Routes.refund now user (Some id) b st =
  (mkResponse 400 (Message "Refund amount cannot exceed order total"), st).
Proof.
  intros Hv Ho Ha Hgt. unfold Routes.refund. run_route.
  rewrite bool_decide_eq_true_2 by exact Hv. simpl.
  apply validateRefund_nil in Hv. destruct Hv as [_ Hr].
  apply notEmpty_spec in Hr. destruct Hr as (r & Hr & _).
  rewrite Ho, Ha, Hr. simpl. now rewrite Hgt.
Qed.

(** A valid request within the total goes through [processRefund]. *)
Lemma refund_accepted (now : Date) (user id : ObjectId) (b : RefundBody)
    (st : Store) (o : t) (amount : float) (reason : string) :
  validateRefund b = [] -> st !! id = Some o ->
  rb_amount b = Some amount -> rb_reason b = Some reason ->
  (total o <? amount)%float = false ->
  let o' := set_updatedAt (Some now) (markRefunded now amount reason user o) in
  Routes.refund now user (Some id) b st =
  (mkResponse 200 (Message "Refund processed successfully"), <[_id o := o']> st).
Proof.
  intros Hv Ho Ha Hr Hle. unfold Routes.refund. run_route.
  rewrite bool_decide_eq_true_2 by exact Hv. simpl.
  rewrite Ho, Ha, Hr. simpl. now rewrite Hle.
Qed.



(** C5. For every stored order and every refund request whose amount is
    above the order's total, the route answers 400 and the collection,
    hence the order, is what it was; when the validators pass, the answer
    is the one given right before [processRefund] would be called. *)
Theorem refund_above_total_rejected (now : Date) (adminId id : ObjectId)
    (b : RefundBody) (st : Store) (o : t) (amount : float) :
  st !! id = Some o ->
  rb_amount b = Some amount ->
  (total o <? amount)%float = true ->
  exists p,
    Routes.refund now adminId (Some id) b st = (mkResponse 400 p, st) /\
    (validateRefund b = [] ->
     p = Message "Refund amount cannot exceed order total").
Proof.
  intros Ho Ha Hgt.
  destruct (decide (validateRefund b = [])) as [Hv | Hv].
  - exists (Message "Refund amount cannot exceed order total").
    split; [|reflexivity].
    now apply refund_too_much with (o := o) (amount := amount).
  - exists (Errors (validateRefund b)).
    split; [now apply refund_invalid | contradiction].
Qed.

(** An instance: 300.00 asked back on the order of 217.00. *)
Lemma refund_above_total_rejected_witness :
  exists p,
    Routes.refund Samples.noon Samples.admin (Some 100%N)
      (mkRefundBody (Some 300%float) (Some "changed my mind")) Samples.oneOrder
    = (mkResponse 400 p, Samples.oneOrder) /\
    (validateRefund (mkRefundBody (Some 300%float) (Some "changed my mind")) = [] ->
     p = Message "Refund amount cannot exceed order total").
Proof.
  apply (refund_above_total_rejected Samples.noon Samples.admin 100%N
           (mkRefundBody (Some 300%float) (Some "changed my mind"))
           Samples.oneOrder Samples.placed 300%float).
  - reflexivity.
  - reflexivity.
  - reflexivity.
Defined.



(** C9, where the code departs from it: a refund of amount 0 passes
    [isFloat({ min: 0 })] and marks the order refunded. *)
Theorem refund_of_zero_accepted :
  let b := mkRefundBody (Some 0%float) (Some "goodwill") in
  validateRefund b = [] /\
  exists o',
    Routes.refund Samples.noon Samples.admin (Some 100%N) b Samples.oneOrder =
    (mkResponse 200 (Message "Refund processed successfully"),
     <[100%N := o']> Samples.oneOrder) /\
    status o' = "refunded" /\ paymentStatus o' = "refunded" /\
    Order.refund o' = Some (Refund.mk 0 "goodwill" Samples.noon Samples.admin).
Proof.
  split; [reflexivity|].
  exists (set_updatedAt (Some Samples.noon)
            (markRefunded Samples.noon 0 "goodwill" Samples.admin Samples.placed)).
  split; [|now repeat split].
  apply (refund_accepted Samples.noon Samples.admin 100%N _ Samples.oneOrder
           Samples.placed 0%float "goodwill"); reflexivity.
Qed.

(** The rest of C9 holds: no amount, a negative amount, no reason or an
    empty reason is answered 400 and nothing is written. *)
Lemma refund_rejects_bad_input (now : Date) (user : ObjectId)
    (id : option ObjectId) (b : RefundBody) (st : Store) :
  rb_amount b = None \/
  (exists a, rb_amount b = Some a /\ (a <? 0)%float = true) \/
  rb_reason b = None \/ rb_reason b = Some "" ->
  Routes.refund now user id b st = (mkResponse 400 (Errors (validateRefund b)), st) /\
  validateRefund b <> [].
Proof.
  intros H.
  assert (Hv : validateRefund b <> []).
  { rewrite validateRefund_nil. intros [Ha Hr].
    destruct H as [H | [(a & H & Hneg) | [H | H]]]; rewrite H in *;
      try discriminate.
    simpl in Ha. apply andb_prop in Ha. destruct Ha as [_ Ha].
    apply FloatFacts.leb_not_gt in Ha. congruence. }
  split; [now apply refund_invalid | exact Hv].
Qed.

End RefundFacts.

(** ** Status updates *)

Module StatusFacts.
Import Order Routes ValidatorFacts.

Lemma paymentStatuses_truthy (ps : string) :
  In ps paymentStatuses -> Js.truthy ps = true.
Proof.
  unfold paymentStatuses. simpl.
  intros [<- | [<- | [<- | [<- | []]]]]; reflexivity.
Qed.

Lemma updateStatus_accepted (now : Date) (b : StatusBody) (st : Store) (o : t)
    (target : string) :
  validateStatus b = [] -> st !! _id o = Some o -> sb_status b = Some target ->
  exists o',
    updateStatus now (Some (_id o)) b st =
    (mkResponse 200 (MessageOrder "Order status updated successfully" (Some o')),
     <[_id o := o']> st) /\
    status o' = target /\
    paymentStatus o' = paymentStatusAfter b o /\
    orderNumber o' = orderNumber o /\ createdAt o' = createdAt o /\
    tracking o' = tracking o /\ _id o' = _id o.
Proof.
  intros Hv Ho Hs. pose proof Hv as Hv'.
  apply validateStatus_nil in Hv'. destruct Hv' as [_ Hp].
  unfold updateStatus. run_route.
  rewrite bool_decide_eq_true_2 by exact Hv. simpl.
  rewrite Ho, Hs. simpl. unfold paymentStatusAfter.
  destruct (sb_paymentStatus b) as [ps|] eqn:Eps.
  - simpl in Hp. apply (isIn_In paymentStatuses (Some ps)) in Hp.
    destruct Hp as (ps' & [= <-] & Hin).
    rewrite (paymentStatuses_truthy ps Hin).
    unfold save, bind, preSave, stamp, write, modify. simpl.
    rewrite lookup_insert_eq. simpl. eexists. split; [reflexivity|].
    now repeat split.
  - unfold save, bind, preSave, stamp, write, modify. simpl.
    rewrite lookup_insert_eq. simpl. eexists. split; [reflexivity|].
    now repeat split.
Qed.

Lemma updateStatus_invalid (now : Date) (id : option ObjectId) (b : StatusBody)
    (st : Store) :
  validateStatus b <> [] ->
  updateStatus now id b st = (mkResponse 400 (Errors (validateStatus b)), st).
Proof.
  intros H. unfold updateStatus. run_route.
  now rewrite bool_decide_eq_false_2.
Qed.

Lemma updateStatus_missing (now : Date) (id : option ObjectId) (b : StatusBody)
    (st : Store) :
  validateStatus b = [] ->
  match id with Some k => st !! k = None | None => True end ->
  updateStatus now id b st = (mkResponse 404 (Message "Order not found"), st).
Proof.
  intros Hv Hid. unfold updateStatus. run_route.
  rewrite bool_decide_eq_true_2 by exact Hv. simpl.
  destruct id as [k|]; [|reflexivity]. now rewrite Hid.
Qed.



End StatusFacts.

(** ** Tracking updates *)

Module TrackingFacts.
Import Order Routes Calls ValidatorFacts.

Lemma addTrackingUpdate_existing (now : Date) (s : string)
    (loc descr : option string) (o : t) (st : Store) :
  let o' := set_updatedAt (Some now) (pushUpdate now s loc descr o) in
  addTrackingUpdate now s loc descr (mkDoc false o) st =
  Returned (mkDoc false o') (<[_id o := o']> st).
Proof. reflexivity. Qed.

(** What one call does to the tracking of a document. *)
Lemma pushUpdate_tracking (now : Date) (s : string) (loc descr : option string)
    (o : t) :
  let o' := set_updatedAt (Some now) (pushUpdate now s loc descr o) in
  Tracking.updates (tracking o') =
    Tracking.updates (tracking o) ++ [TrackingUpdate.mk s loc now descr] /\
  Tracking.status (tracking o') = Some s /\
  _id o' = _id o /\ orderNumber o' = orderNumber o /\ createdAt o' = createdAt o.
Proof. now repeat split. Qed.

Lemma statusAfter_cons (c : TrackingCall) (rest : list TrackingCall)
    (before : option string) :
  statusAfter (c :: rest) before = statusAfter rest (Some (Calls.status c)).
Proof.
  unfold statusAfter. destruct rest as [|c' rest]; [reflexivity|].
  rewrite last_cons. now destruct (last (c' :: rest)) eqn:E.
Qed.

(** The calls run to the end; the log grows by their entries, in order. *)
Lemma trackAll_spec (calls : list TrackingCall) (o : t) (st : Store) :
  st !! _id o = Some o ->
  exists o' st',
    trackAll calls (mkDoc false o) st = Returned (mkDoc false o') st' /\
    st' !! _id o = Some o' /\ _id o' = _id o /\
    Tracking.updates (tracking o') = Tracking.updates (tracking o) ++ map entry calls /\
    Tracking.status (tracking o') = statusAfter calls (Tracking.status (tracking o)).
Proof.
  revert o st. induction calls as [|c rest IH]; intros o st Ho.
  - exists o, st. simpl. rewrite app_nil_r. now repeat split.
  - cbn [trackAll]. unfold bind. rewrite addTrackingUpdate_existing.
    set (o1 := set_updatedAt (Some (now c))
                 (pushUpdate (now c) (Calls.status c) (location c) (description c) o)).
    destruct (pushUpdate_tracking (now c) (Calls.status c) (location c)
                (description c) o) as (Hup & Hst & Hid & _).
    fold o1 in Hup, Hst, Hid.
    destruct (IH o1 (<[_id o := o1]> st)) as (o' & st' & Hrun & Hlook & Hid' & Hup' & Hst').
    { rewrite Hid. apply lookup_insert_eq. }
    exists o', st'. rewrite Hid in Hlook.
    split; [exact Hrun|]. split; [exact Hlook|]. split; [congruence|].
    split.
    + rewrite Hup', Hup, <- app_assoc. reflexivity.
    + rewrite Hst', Hst, statusAfter_cons. reflexivity.
Qed.



(** The tracking route passes its body on, the two optional texts trimmed. *)
Lemma addTracking_accepted (now : Date) (b : TrackingBody) (st : Store) (o : t)
    (s : string) :
  st !! _id o = Some o -> tb_status b = Some s -> s <> "" ->
  let o' := set_updatedAt (Some now)
              (pushUpdate now s (Js.trim <$> tb_location b)
                          (Js.trim <$> tb_description b) o) in
  addTracking now (Some (_id o)) b st =
  (mkResponse 200 (Message "Tracking update added successfully"),
   <[_id o := o']> st).
Proof.
  intros Ho Hs Hne. unfold addTracking. run_route.
  rewrite bool_decide_eq_true_2
    by (apply validateTracking_nil, notEmpty_spec; eauto).
  simpl. now rewrite Ho, Hs.
Qed.

End TrackingFacts.

(** ** Order creation *)

Module CreateFacts.
Import Order Routes ValidatorFacts.

Section WithCatalogue.

Variable isEmail : string -> bool.
Variable designs : gmap ObjectId Design.t.

Lemma eachItem_nil (v : option (list ItemBody)) (ok : ItemBody -> bool)
    (msg : string) (its : list ItemBody) :
  v = Some its -> eachItem v ok msg = [] -> Forall (fun it => ok it = true) its.
Proof.
  intros -> H. unfold eachItem in H. simpl in H.
  induction its as [|it its IH]; constructor;
    simpl in H; apply app_nil in H; destruct H as [H1 H2].
  - now apply check_nil in H1.
  - now apply IH.
Qed.

Lemma validateCreate_nil (b : CreateBody) :
  validateCreate isEmail b = [] ->
  exists its method billing,
    items b = Some its /\ its <> [] /\ paymentMethod b = Some method /\
    billingAddress b = Some billing /\ Forall wellFormed its.
Proof.
  unfold validateCreate. rewrite !app_nil, !check_nil.
  intros (Hitems & Hd & Hq & Hl & Hm & Hb & _).
  destruct (items b) as [[|it its]|] eqn:Ei; try discriminate.
  destruct (paymentMethod b) as [method|]; [|discriminate].
  destruct (billingAddress b) as [billing|]; [|discriminate].
  exists (it :: its), method, billing. repeat split; try reflexivity; [discriminate|].
  pose proof (eachItem_nil _ _ _ _ eq_refl Hd) as Fd.
  pose proof (eachItem_nil _ _ _ _ eq_refl Hq) as Fq.
  pose proof (eachItem_nil _ _ _ _ eq_refl Hl) as Fl.
  rewrite Forall_forall in *. intros x Hx.
  specialize (Fd x Hx). specialize (Fq x Hx). specialize (Fl x Hx).
  simpl in *. unfold wellFormed.
  destruct (design x), (quantity x), (license x); try discriminate; eauto.
Qed.

(** How the loop ends on well-formed items: at the first item that is
    missing or unpublished, with a 400; else with one order item per item
    and the running sum. *)
Lemma resolveItems_spec (its : list ItemBody) (acc : list Item.t) (sum : float)
    (st : Store) :
  Forall wellFormed its ->
  (exists lines,
     Forall2 (lineOf designs) its lines /\
     resolveItems designs its acc sum st =
     Returned (inr (acc ++ lines, sumFrom sum lines)) st) \/
  (exists good it rest p,
     its = good ++ it :: rest /\ Forall (purchasable designs) good /\
     (missing designs it /\ p = DesignNotFound (design it) \/
      exists dsg, referenced designs it = Some dsg /\
                  Design.status dsg <> "published" /\
                  p = DesignNotAvailable (Design.title dsg)) /\
     resolveItems designs its acc sum st = Returned (inl (mkResponse 400 p)) st).
Proof.
  intros Hwf. revert acc sum.
  induction Hwf as [|it its (Hd & Hq & Hl) Hrest IH]; intros acc sum.
  - left. exists []. split; [constructor|]. simpl. now rewrite app_nil_r.
  - destruct Hd as [id Hd], Hq as [qty Hq], Hl as [lic Hl].
    cbn [resolveItems]. unfold bind, Design_findById. rewrite Hd. unfold ret.
    destruct (designs !! id) as [dsg|] eqn:Hfound.
    + destruct (String.eqb (Design.status dsg) "published") eqn:Hpub; simpl.
      * apply String.eqb_eq in Hpub. rewrite Hq, Hl.
        assert (Hline : lineOf designs it
                  (Item.mk (Design._id dsg) qty (Design.price dsg) lic)).
        { exists dsg, qty, lic. unfold referenced. rewrite Hd. simpl.
          now rewrite Hfound. }
        destruct (IH (acc ++ [Item.mk (Design._id dsg) qty (Design.price dsg) lic])
                     (sum + Design.price dsg * qty)%float)
          as [(lines & Hlines & Hrun) | (good & bad & rest & p & -> & Hgood & Hbad & Hrun)].
        -- left. exists (Item.mk (Design._id dsg) qty (Design.price dsg) lic :: lines).
           split; [now constructor|]. rewrite Hrun, <- app_assoc. reflexivity.
        -- right. exists (it :: good), bad, rest, p.
           split; [reflexivity|]. split; [|split; assumption].
           constructor; [|exact Hgood].
           destruct Hline as (d' & _ & _ & Hr & Hs & _). now exists d'.
      * apply String.eqb_neq in Hpub. right.
        exists [], it, its, (DesignNotAvailable (Design.title dsg)).
        split; [reflexivity|]. split; [constructor|]. split; [|reflexivity].
        right. exists dsg. unfold referenced. rewrite Hd. simpl. now rewrite Hfound.
    + right. exists [], it, its, (DesignNotFound (design it)).
      split; [reflexivity|]. split; [constructor|]. split; [|now rewrite Hd].
      left. split; [|reflexivity]. unfold missing, referenced.
      rewrite Hd. simpl. split; [eauto | exact Hfound].
Qed.

Lemma lineOf_purchasable (it : ItemBody) (l : Item.t) :
  lineOf designs it l -> purchasable designs it.
Proof. intros (dsg & _ & _ & Hr & Hs & _). now exists dsg. Qed.

Lemma purchasable_not_bad (it : ItemBody) :
  purchasable designs it -> ~ (missing designs it \/ unpublished designs it).
Proof.
  intros (dsg & Hr & Hs) [[_ Hm] | (dsg' & Hr' & Hs')]; congruence.
Qed.

(** Every way the create route can end: the validators reject the
    request; or some item is the first to name a design that is missing or
    not published; or, for a valid request over published designs, the
    route builds the order and its save fails the validation.  No way
    ends with a stored order. *)
Lemma create_cases (now : Date) (freshId user : ObjectId) (b : CreateBody)
    (st : Store) :
  (exists its lines method billing,
     validateCreate isEmail b = [] /\ items b = Some its /\
     paymentMethod b = Some method /\ billingAddress b = Some billing /\
     Forall2 (lineOf designs) its lines /\
     save now (built freshId user b lines method billing) st =
       Threw ValidationError st /\
     create isEmail designs now freshId user b st =
     (mkResponse 500 (Message "Server error"), st)) \/
  (validateCreate isEmail b <> [] /\
   create isEmail designs now freshId user b st =
   (mkResponse 400 (Errors (validateCreate isEmail b)), st)) \/
  (exists its good it rest p,
     validateCreate isEmail b = [] /\ items b = Some its /\
     its = good ++ it :: rest /\ Forall (purchasable designs) good /\
     (missing designs it /\ p = DesignNotFound (design it) \/
      exists dsg, referenced designs it = Some dsg /\
                  Design.status dsg <> "published" /\
                  p = DesignNotAvailable (Design.title dsg)) /\
     create isEmail designs now freshId user b st = (mkResponse 400 p, st)).
Proof.
  unfold create. run_route.
  destruct (decide (validateCreate isEmail b = [])) as [Hv | Hv].
  - rewrite bool_decide_eq_true_2 by exact Hv. simpl.
    destruct (validateCreate_nil b Hv)
      as (its & method & billing & Hi & _ & Hm & Hb & Hwf).
    rewrite Hi, Hm, Hb.
    destruct (resolveItems_spec its [] 0%float st Hwf)
      as [(lines & Hlines & Hrun) | (good & bad & rest & p & Hsplit & Hgood & Hbad & Hrun)];
      rewrite Hrun; simpl.
    + left. exists its, lines, method, billing.
      rewrite StoreFacts.save_unnumbered by reflexivity. simpl.
      repeat split; auto.
    + right. right. exists its, good, bad, rest, p. now repeat split.
  - rewrite bool_decide_eq_false_2 by exact Hv. simpl. right. left. now split.
Qed.

(** The totals of the order the route builds. *)
Lemma built_totals (freshId user : ObjectId) (b : CreateBody)
    (lines : list Item.t) (method : string) (billing : Address.t) :
  let o := data (built freshId user b lines method billing) in
  Order.items o = lines /\
  subtotal o = sumFrom 0%float (Order.items o) /\
  tax o = (subtotal o * taxRate)%float /\
  total o = (subtotal o + tax o)%float /\
  calculateTotals o = o /\
  orderNumber o = None.
Proof. now repeat split. Qed.

(** A valid request over published designs is answered 500, and nothing
    is stored. *)
Lemma create_refused (now : Date) (freshId user : ObjectId) (b : CreateBody)
    (st : Store) (its : list ItemBody) :
  validateCreate isEmail b = [] -> items b = Some its ->
  Forall (purchasable designs) its ->
  create isEmail designs now freshId user b st =
  (mkResponse 500 (Message "Server error"), st).
Proof.
  intros Hv Hi Hp.
  destruct (create_cases now freshId user b st)
    as [(_ & _ & _ & _ & _ & _ & _ & _ & _ & _ & Hrun)
       | [[Hv' _]
       | (its' & good & it & rest & p & _ & Hi' & -> & _ & Hbad & _)]].
  - exact Hrun.
  - contradiction.
  - exfalso. rewrite Hi in Hi'. injection Hi' as ->.
    apply Forall_app in Hp. destruct Hp as [_ Hp].
    apply Forall_cons in Hp. destruct Hp as [Hp _].
    apply (purchasable_not_bad it Hp).
    destruct Hbad as [[Hm _] | (dsg & Hr & Hs & _)]; [now left | right].
    now exists dsg.
Qed.

(** C7, as the code has it. When some item of a request that passed the
    validators names a design that is missing or not published, the create
    route answers 400 (also for a missing design: it never answers 404)
    and the collection is what it was.  The answer is about the first such
    item: the id that was not found, or the title of the design that is
    not available. *)
Theorem create_rejects_unavailable (now : Date) (freshId user : ObjectId)
    (b : CreateBody) (st : Store) (its : list ItemBody) :
  validateCreate isEmail b = [] -> items b = Some its ->
  Exists (fun it => missing designs it \/ unpublished designs it) its ->
  exists good it rest p,
    its = good ++ it :: rest /\ Forall (purchasable designs) good /\
    (missing designs it /\ p = DesignNotFound (design it) \/
     exists dsg, referenced designs it = Some dsg /\
                 Design.status dsg <> "published" /\
                 p = DesignNotAvailable (Design.title dsg)) /\
    create isEmail designs now freshId user b st = (mkResponse 400 p, st).
Proof.
  intros Hv Hi Hbad.
  assert (Hnot : ~ Forall (purchasable designs) its).
  { intros Hall. apply Exists_exists in Hbad. destruct Hbad as (it & Hin & Hit).
    rewrite Forall_forall in Hall.
    exact (purchasable_not_bad it (Hall it Hin) Hit). }
  destruct (create_cases now freshId user b st)
    as [(its' & lines & _ & _ & _ & Hi' & _ & _ & Hl & _)
       | [[Hv' _]
       | (its' & good & it & rest & p & _ & Hi' & Hsplit & Hgood & Hit & Hrun)]].
  - exfalso. apply Hnot. rewrite Hi in Hi'. injection Hi' as <-.
    eapply Forall2_Forall_l; [exact Hl|].
    apply Forall_forall. intros l _ it. apply lineOf_purchasable.
  - contradiction.
  - rewrite Hi in Hi'. injection Hi' as <-. now exists good, it, rest, p.
Qed.

End WithCatalogue.

(** C1, where the code departs from it.  For the cart of the
    specification's example (design A, price 100, once; design B, price
    50, twice) the create route passes the validators, finds both designs
    published and builds an order with subtotal 200, tax 17 and total 217,
    the amounts [calculateTotals] recomputes.  But the order has no order
    number yet: its save fails the validation, which comes before the
    pre-save hook, and the route answers 500 and persists nothing. *)
Theorem create_cart_refused :
  let order := data (Samples.cartDoc 100%N) in
  validateCreate Samples.isEmail Samples.cart = [] /\
  (exists its,
     items Samples.cart = Some its /\
     Forall (purchasable Samples.designs) its /\
     Forall2 (lineOf Samples.designs) its (Order.items order)) /\
  subtotal order = 200%float /\ tax order = 17%float /\
  total order = 217%float /\
  subtotal order = sumFrom 0%float (Order.items order) /\
  tax order = (subtotal order * taxRate)%float /\
  total order = (subtotal order + tax order)%float /\
  calculateTotals order = order /\
  orderNumber order = None /\
  validates order = false /\
  save Samples.morning (Samples.cartDoc 100%N) ∅ = Threw ValidationError ∅ /\
  create Samples.isEmail Samples.designs Samples.morning 100%N
    Samples.customer Samples.cart ∅ =
  (mkResponse 500 (Message "Server error"), ∅).
Proof.
  intros order. split; [reflexivity|]. split.
  - eexists. split; [reflexivity|]. split.
    + repeat constructor.
      * exists Samples.designA. now split.
      * exists Samples.designB. now split.
    + repeat constructor.
      * exists Samples.designA, 1%float, "personal". now repeat split.
      * exists Samples.designB, 2%float, "commercial". now repeat split.
  - repeat split; vm_compute; reflexivity.
Qed.

(** The stored order of the examples is the order the route builds from
    the cart, with the order number and the timestamps of a first order
    of the day. *)
Example placed_from_cart :
  set_updatedAt (Some Samples.morning)
    (set_createdAt (Some Samples.morning)
       (set_orderNumber (Some "ORD250115001") (data (Samples.cartDoc 100%N)))) =
  Samples.placed.
Proof. reflexivity. Qed.

(** C7 as stated fails: a valid request that names a design the
    collection does not have is answered 400, not 404. *)
Lemma create_missing_design_not_404 :
  validateCreate Samples.isEmail Samples.cartMissing = [] /\
  Samples.designs !! 9%N = None /\
  create Samples.isEmail Samples.designs Samples.morning 100%N Samples.customer
    Samples.cartMissing ∅ =
  (mkResponse 400 (DesignNotFound (Some 9%N)), ∅) /\
  statusCode (create Samples.isEmail Samples.designs Samples.morning 100%N
                Samples.customer Samples.cartMissing ∅).1 <> 404.
Proof. repeat split; vm_compute; congruence. Qed.

(** Instances: the cart with a missing design and the cart with a draft. *)
Lemma create_rejects_unavailable_witness :
  (exists good it rest p,
     [Samples.item 1%N 1%float "personal"; Samples.item 9%N 1%float "personal"] =
       good ++ it :: rest /\
     Forall (purchasable Samples.designs) good /\
     (missing Samples.designs it /\ p = DesignNotFound (design it) \/
      exists dsg, referenced Samples.designs it = Some dsg /\
                  Design.status dsg <> "published" /\
                  p = DesignNotAvailable (Design.title dsg)) /\
     create Samples.isEmail Samples.designs Samples.morning 100%N
       Samples.customer Samples.cartMissing Samples.oneOrder =
     (mkResponse 400 p, Samples.oneOrder)) /\
  (exists good it rest p,
     [Samples.item 3%N 1%float "personal"] = good ++ it :: rest /\
     Forall (purchasable Samples.designs) good /\
     (missing Samples.designs it /\ p = DesignNotFound (design it) \/
      exists dsg, referenced Samples.designs it = Some dsg /\
                  Design.status dsg <> "published" /\
                  p = DesignNotAvailable (Design.title dsg)) /\
     create Samples.isEmail Samples.designs Samples.morning 101%N
       Samples.customer Samples.cartDraft Samples.oneOrder =
     (mkResponse 400 p, Samples.oneOrder)).
Proof.
  split.
  - apply (create_rejects_unavailable Samples.isEmail Samples.designs
             Samples.morning 100%N Samples.customer Samples.cartMissing
             Samples.oneOrder).
    + reflexivity.
    + reflexivity.
    + apply Exists_cons_tl, Exists_cons_hd. left.
      split; [eexists; reflexivity | reflexivity].
  - apply (create_rejects_unavailable Samples.isEmail Samples.designs
             Samples.morning 101%N Samples.customer Samples.cartDraft
             Samples.oneOrder).
    + reflexivity.
    + reflexivity.
    + apply Exists_cons_hd. right. exists Samples.designDraft.
      split; [reflexivity | discriminate].
Defined.

End CreateFacts.

(** ** Order numbers *)

Module NumberFacts.
Import Order JsFacts.

Lemma daysInMonth_bound (y m : Z) : 28 <= JsDate.daysInMonth y m <= 31.
Proof.
  unfold JsDate.daysInMonth.
  destruct (m =? 1); [destruct (JsDate.isLeap y); lia|].
  destruct ((m =? 3) || (m =? 5) || (m =? 8) || (m =? 10)); lia.
Qed.

(** The six digits of the date. *)
Lemma datePart_valid (now : Date) :
  JsDate.valid now ->
  datePart now =
  Spec.twoDigits (JsDate.getFullYear now)
  +:+ Spec.twoDigits (JsDate.getMonth now + 1)
  +:+ Spec.twoDigits (JsDate.getDate now).
Proof.
  intros (Hy & Hm & Hd & _). unfold datePart.
  pose proof (daysInMonth_bound (JsDate.getFullYear now) (JsDate.getMonth now)).
  now rewrite slice2_twoDigits, !padStart2_twoDigits by lia.
Qed.

Lemma length_twoDigits (n : Z) : String.length (Spec.twoDigits n) = 2%nat.
Proof. reflexivity. Qed.

Lemma length_datePart (now : Date) :
  JsDate.valid now -> String.length (datePart now) = 6%nat.
Proof. intros H. now rewrite datePart_valid. Qed.

(** Up to 999 the hook writes the order number of the specification. *)
Lemma numberWith_spec (now : Date) (n : Z) :
  JsDate.valid now -> 0 <= n <= 999 ->
  numberWith now n =
  Spec.orderNumber (JsDate.getFullYear now) (JsDate.getMonth now + 1)
                   (JsDate.getDate now) n.
Proof.
  intros Hv Hn. unfold numberWith, Spec.orderNumber.
  rewrite datePart_valid, padStart3_threeDigits by (assumption || lia).
  now rewrite !append_assoc.
Qed.

(** From 1000 on the sequence is written in full, four digits or more. *)
Lemma numberWith_overflow (now : Date) (n : Z) :
  JsDate.valid now -> 1000 <= n ->
  numberWith now n = "ORD" +:+ datePart now +:+ Js.toString n /\
  (13 <= String.length (numberWith now n))%nat.
Proof.
  intros Hv Hn. unfold numberWith.
  destruct (padStart3_overflow n Hn) as [-> Hlen].
  split; [reflexivity|].
  rewrite !length_append, length_datePart by assumption. simpl. lia.
Qed.

Lemma numberWith_matches (now : Date) (n : Z) :
  JsDate.valid now -> 0 <= n -> Js.test_ORD_d8 (numberWith now n) = true.
Proof.
  intros Hv Hn. unfold numberWith. rewrite datePart_valid by assumption.
  rewrite !append_assoc.
  apply test_ORD_d8_intro;
    auto using length_twoDigits, isDigit_twoDigits, padStart_digits.
  rewrite length_padStart. lia.
Qed.

Lemma sequenceOf_numberWith (now : Date) (n : Z) :
  JsDate.valid now -> 0 <= n -> Spec.sequenceOf (numberWith now n) = n.
Proof.
  intros Hv Hn. unfold Spec.sequenceOf, numberWith.
  rewrite <- append_assoc.
  set (pre := "ORD" +:+ datePart now).
  assert (Hpre : String.length pre = 9%nat).
  { unfold pre. rewrite length_append, length_datePart by assumption.
    reflexivity. }
  rewrite length_append, Hpre.
  replace (9 + String.length (Js.padStart 3 "0" (Js.toString n)) - 9)%nat
    with (String.length (Js.padStart 3 "0" (Js.toString n))) by lia.
  rewrite <- Hpre at 1. rewrite substring_skip, substring_all.
  now apply padStart_value.
Qed.

Lemma lastThree_numberWith (now : Date) (n : Z) :
  0 <= n <= 999 -> Spec.lastThree (numberWith now n) = n.
Proof.
  intros Hn. unfold Spec.lastThree, numberWith.
  rewrite <- append_assoc.
  rewrite <- (padStart_value 3 n) at 2 by lia.
  rewrite padStart3_threeDigits by lia. f_equal.
  apply (slice_suffix ("ORD" +:+ datePart now) (Spec.threeDigits n)).
  discriminate.
Qed.

(** From 1000 on the last three digits are those of the sequence modulo
    1000. *)
Lemma lastThree_1000 (now : Date) : Spec.lastThree (numberWith now 1000) = 0.
Proof.
  unfold Spec.lastThree, numberWith.
  change (Js.padStart 3 "0" (Js.toString 1000)) with ("1" +:+ "000").
  pose proof (slice_suffix ("ORD" +:+ datePart now +:+ "1") "000") as H.
  rewrite !append_assoc in H.
  change (- Z.of_nat (String.length "000")) with (-3) in H.
  now rewrite H.
Qed.

(** The hook reads only the day of [now]. *)
Lemma numberWith_sameDay (a b : Date) (n : Z) :
  JsDate.sameDay a b -> numberWith a n = numberWith b n.
Proof.
  intros (Hy & Hm & Hd). unfold numberWith, datePart. now rewrite Hy, Hm, Hd.
Qed.

Lemma orderCount_sameDay (a b : Date) (st : Store) :
  JsDate.sameDay a b -> orderCount a st = orderCount b st.
Proof.
  intros (Hy & Hm & Hd). unfold orderCount, todayStart, todayEnd.
  now rewrite Hy, Hm, Hd.
Qed.

(** An order saved at [now] is one of the orders of [now]'s day. *)
Lemma createdBetween_today (day now : Date) (o : t) :
  JsDate.valid day -> JsDate.valid now -> JsDate.sameDay now day ->
  createdAt o = Some now ->
  createdBetween (todayStart day) (todayEnd day) o = true.
Proof.
  intros Hd Hn Hsame Hc. unfold createdBetween. rewrite Hc.
  now apply DateFacts.window_sameDay.
Qed.

End NumberFacts.

(** ** The routes as one service *)

Module ServiceFacts.
Import Order Routes ValidatorFacts.

Lemma addTracking_invalid (now : Date) (id : option ObjectId) (b : TrackingBody)
    (st : Store) :
  validateTracking b <> [] ->
  addTracking now id b st = (mkResponse 400 (Errors (validateTracking b)), st).
Proof.
  intros H. unfold addTracking. run_route. now rewrite bool_decide_eq_false_2.
Qed.

Lemma addTracking_missing (now : Date) (id : option ObjectId) (b : TrackingBody)
    (st : Store) :
  validateTracking b = [] ->
  match id with Some k => st !! k = None | None => True end ->
  addTracking now id b st = (mkResponse 404 (Message "Order not found"), st).
Proof.
  intros Hv Hid. unfold addTracking. run_route.
  rewrite bool_decide_eq_true_2 by exact Hv. simpl.
  destruct id as [k|]; [|reflexivity]. now rewrite Hid.
Qed.

Lemma refund_missing (now : Date) (user : ObjectId) (id : option ObjectId)
    (b : RefundBody) (st : Store) :
  validateRefund b = [] ->
  match id with Some k => st !! k = None | None => True end ->
  Routes.refund now user id b st = (mkResponse 404 (Message "Order not found"), st).
Proof.
  intros Hv Hid. unfold Routes.refund. run_route.
  rewrite bool_decide_eq_true_2 by exact Hv. simpl.
  destruct id as [k|]; [|reflexivity]. now rewrite Hid.
Qed.

Lemma updateStatus_effect (now : Date) (id : option ObjectId) (b : StatusBody)
    (st : Store) :
  wf st ->
  Effect now st (updateStatus now id b st).1 (updateStatus now id b st).2.
Proof.
  intros Hwf.
  destruct (decide (validateStatus b = [])) as [Hv | Hv];
    [|rewrite StatusFacts.updateStatus_invalid by exact Hv; now apply Unchanged].
  destruct id as [k|];
    [|rewrite StatusFacts.updateStatus_missing by auto; now apply Unchanged].
  destruct (st !! k) as [o|] eqn:Ho;
    [|rewrite StatusFacts.updateStatus_missing by auto; now apply Unchanged].
  pose proof (Hwf k o Ho) as <-.
  pose proof Hv as Hv'. apply validateStatus_nil in Hv'. destruct Hv' as [Hs _].
  apply isIn_In in Hs. destruct Hs as (target & Hs & _).
  destruct (StatusFacts.updateStatus_accepted now b st o target Hv Ho Hs)
    as (o' & -> & _ & _ & Hn & Hc & _ & Hid).
  now apply (Replaced now st _ _ (_id o) o o').
Qed.

Lemma addTracking_effect (now : Date) (id : option ObjectId) (b : TrackingBody)
    (st : Store) :
  wf st ->
  Effect now st (addTracking now id b st).1 (addTracking now id b st).2.
Proof.
  intros Hwf.
  destruct (decide (validateTracking b = [])) as [Hv | Hv];
    [|rewrite addTracking_invalid by exact Hv; now apply Unchanged].
  destruct id as [k|];
    [|rewrite addTracking_missing by auto; now apply Unchanged].
  destruct (st !! k) as [o|] eqn:Ho;
    [|rewrite addTracking_missing by auto; now apply Unchanged].
  pose proof (Hwf k o Ho) as <-.
  pose proof Hv as Hv'. apply validateTracking_nil, notEmpty_spec in Hv'.
  destruct Hv' as (s & Hs & Hne).
  rewrite (TrackingFacts.addTracking_accepted now b st o s Ho Hs Hne).
  now eapply (Replaced now st _ _ (_id o) o).
Qed.

Lemma refund_effect (now : Date) (user : ObjectId) (id : option ObjectId)
    (b : RefundBody) (st : Store) :
  wf st ->
  Effect now st (Routes.refund now user id b st).1 (Routes.refund now user id b st).2.
Proof.
  intros Hwf.
  destruct (decide (validateRefund b = [])) as [Hv | Hv];
    [|rewrite RefundFacts.refund_invalid by exact Hv; now apply Unchanged].
  destruct id as [k|];
    [|rewrite refund_missing by auto; now apply Unchanged].
  destruct (st !! k) as [o|] eqn:Ho;
    [|rewrite refund_missing by auto; now apply Unchanged].
  pose proof (Hwf k o Ho) as <-.
  pose proof Hv as Hv'. apply validateRefund_nil in Hv'. destruct Hv' as [Ha Hr].
  apply notEmpty_spec in Hr. destruct Hr as (reason & Hr & _).
  destruct (rb_amount b) as [amount|] eqn:Ea; [|discriminate].
  destruct (total o <? amount)%float eqn:Hgt.
  - erewrite RefundFacts.refund_too_much by eauto. now apply Unchanged.
  - erewrite RefundFacts.refund_accepted by eauto.
    now eapply (Replaced now st _ _ (_id o) o).
Qed.

Section Service.

Variable isEmail : string -> bool.

Lemma create_effect (designs : gmap ObjectId Design.t) (now : Date)
    (freshId user : ObjectId) (b : CreateBody) (st : Store) :
  Effect now st (create isEmail designs now freshId user b st).1
                (create isEmail designs now freshId user b st).2.
Proof.
  destruct (CreateFacts.create_cases isEmail designs now freshId user b st)
    as [(? & ? & ? & ? & _ & _ & _ & _ & _ & _ & ->)
       | [[_ ->] | (? & ? & ? & ? & ? & _ & _ & _ & _ & _ & ->)]];
    now apply Unchanged.
Qed.

(** Whatever the request, the service does one of the two things. *)
Lemma handle_effect (s : Step) (st : Store) :
  wf st -> Effect (at_ s) st (handle isEmail s st).1 (handle isEmail s st).2.
Proof.
  intros Hwf. unfold handle. destruct (request s).
  - apply create_effect.
  - now apply updateStatus_effect.
  - now apply addTracking_effect.
  - now apply refund_effect.
Qed.

Lemma Effect_wf (now : Date) (st : Store) (r : Response) (st' : Store) :
  wf st -> Effect now st r st' -> wf st'.
Proof.
  intros Hwf [-> _ | k o o' _ -> <- _ _ _];
    auto using StoreFacts.wf_insert.
Qed.

(** A stored order keeps its order number through any request. *)
Lemma Effect_keeps_number (now : Date) (st : Store) (r : Response) (st' : Store)
    (k : ObjectId) (o : t) :
  Effect now st r st' -> st !! k = Some o ->
  exists o', st' !! k = Some o' /\ orderNumber o' = orderNumber o.
Proof.
  intros [-> _ | k1 o1 o1' H1 -> _ Hn _ _] Hk.
  - eauto.
  - destruct (decide (k1 = k)) as [-> | Hne].
    + rewrite lookup_insert_eq. exists o1'. split; [reflexivity|]. congruence.
    + rewrite lookup_insert_ne by exact Hne. eauto.
Qed.

Lemma run_cons (s : Step) (rest : list Step) (st : Store) :
  run isEmail (s :: rest) st =
  ((handle isEmail s st).1 :: (run isEmail rest (handle isEmail s st).2).1,
   (run isEmail rest (handle isEmail s st).2).2).
Proof.
  simpl. destruct (handle isEmail s st) as [r st1]. simpl.
  now destruct (run isEmail rest st1).
Qed.

Lemma run_wf (steps : list Step) (st : Store) :
  wf st -> wf (run isEmail steps st).2.
Proof.
  revert st. induction steps as [|s rest IH]; intros st Hwf; [exact Hwf|].
  rewrite run_cons. simpl. apply IH.
  eapply Effect_wf; [exact Hwf | now apply handle_effect].
Qed.

(** No later request, of any kind, changes the order number of a stored
    order. *)
Lemma run_keeps_numbers (steps : list Step) (st : Store) (k : ObjectId) (o : t) :
  wf st -> st !! k = Some o ->
  exists o', (run isEmail steps st).2 !! k = Some o' /\
             orderNumber o' = orderNumber o.
Proof.
  revert st o. induction steps as [|s rest IH]; intros st o Hwf Hk; [eauto|].
  rewrite run_cons. simpl.
  pose proof (handle_effect s st Hwf) as He.
  destruct (Effect_keeps_number _ _ _ _ k o He Hk) as (o1 & Hk1 & Hn1).
  destruct (IH _ o1 (Effect_wf _ _ _ _ Hwf He) Hk1) as (o' & Hk' & Hn').
  exists o'. split; [exact Hk' | congruence].
Qed.

End Service.

End ServiceFacts.

(** ** Order numbering *)

Module NumberingClaims.
Import Order Routes.

(** The hook, on a new document, by the names of its parts. *)
Lemma preSave_numberFor (now : Date) (d : Doc) (st : Store) :
  isNew d = true ->
  preSave now d st =
  Returned (modify (set_orderNumber (Some (numberFor now st))) d) st.
Proof.
  destruct d as [n o]. simpl. intros ->. apply StoreFacts.preSave_new.
Qed.

(** A save that returns leaves a document that is not new. *)
Lemma save_not_new (now : Date) (d d' : Doc) (st st' : Store) :
  save now d st = Returned d' st' -> isNew d' = false.
Proof.
  destruct d as [[|] o]; unfold save, bind, validate; cbn [isNew data].
  - destruct (validates o); cbn [negb andb]; [|discriminate].
    rewrite StoreFacts.preSave_new. unfold stamp, write, modify. simpl.
    destruct (st !! _id o); [discriminate|].
    destruct (numberHeld _ st); [discriminate|].
    now intros [= <- _].
  - simpl. now intros [= <- _].
Qed.

Section Service.

Variable isEmail : string -> bool.


End Service.






End NumberingClaims.

(** ** More on the pre-save hook *)

Module HookProps.
Import Order JsFacts.

(** X1. The filter of the hook's count selects exactly the orders created
    on the local calendar day of [now], also when that day is the last of
    its month or year; an order without creation time is not counted. *)
Theorem hook_counts_calendar_day (now c : Date) (o : t) :
  JsDate.valid now -> JsDate.valid c ->
  (createdAt o = Some c ->
   (createdBetween (todayStart now) (todayEnd now) o = true <->
    JsDate.sameDay c now)) /\
  (createdAt o = None ->
   createdBetween (todayStart now) (todayEnd now) o = false).
Proof.
  intros Hnow Hc. split; intros Ho; unfold createdBetween; rewrite Ho.
  - now apply DateFacts.window_sameDay.
  - reflexivity.
Qed.

(** An instance: at the last millisecond of 2024, an order of that day is
    counted and an order of new year's day is not. *)
Lemma hook_counts_calendar_day_witness :
  (createdBetween (todayStart MoreSamples.newYearsEve)
     (todayEnd MoreSamples.newYearsEve)
     (set_createdAt (Some (JsDate.mk 2024 11 31 0)) Samples.placed) = true <->
   JsDate.sameDay (JsDate.mk 2024 11 31 0) MoreSamples.newYearsEve) /\
  (createdBetween (todayStart MoreSamples.newYearsEve)
     (todayEnd MoreSamples.newYearsEve)
     (set_createdAt (Some MoreSamples.newYearsDay) Samples.placed) = true <->
   JsDate.sameDay MoreSamples.newYearsDay MoreSamples.newYearsEve).
Proof.
  split.
  - apply (hook_counts_calendar_day MoreSamples.newYearsEve (JsDate.mk 2024 11 31 0)
             (set_createdAt (Some (JsDate.mk 2024 11 31 0)) Samples.placed)).
    + vm_compute. intuition congruence.
    + vm_compute. intuition congruence.
    + reflexivity.
  - apply (hook_counts_calendar_day MoreSamples.newYearsEve MoreSamples.newYearsDay
             (set_createdAt (Some MoreSamples.newYearsDay) Samples.placed)).
    + vm_compute. intuition congruence.
    + vm_compute. intuition congruence.
    + reflexivity.
Defined.

Lemma twoDigits_value (n : Z) : Js.digitsValue (Spec.twoDigits n) = n mod 100.
Proof.
  unfold Spec.twoDigits, Js.digitsValue. simpl.
  rewrite !digitChar_value by apply mod10_digit.
  Z.div_mod_to_equations. lia.
Qed.

Lemma twoDigits_mod (n m : Z) :
  n mod 100 = m mod 100 -> Spec.twoDigits n = Spec.twoDigits m.
Proof.
  intros H. unfold Spec.twoDigits.
  replace (n / 10 mod 10) with (m / 10 mod 10)
    by (Z.div_mod_to_equations; lia).
  replace (n mod 10) with (m mod 10) by (Z.div_mod_to_equations; lia).
  reflexivity.
Qed.

Lemma twoDigits_append_inj (x y : Z) (s t : string) :
  Spec.twoDigits x +:+ s = Spec.twoDigits y +:+ t ->
  x mod 100 = y mod 100 /\ s = t.
Proof.
  unfold Spec.twoDigits. rewrite !append_cons, !append_nil_l.
  intros H. injection H as H1 H2 H3. split; [|exact H3].
  apply (f_equal (fun c => Z.of_N (N_of_ascii c) - 48)) in H1, H2.
  rewrite !digitChar_value in H1, H2 by apply mod10_digit.
  Z.div_mod_to_equations. lia.
Qed.

(** The six characters after the letters are the date part. *)
Lemma datePart_of_number (now : Date) (n : Z) :
  JsDate.valid now -> substring 3 6 (numberWith now n) = datePart now.
Proof.
  intros Hv. unfold numberWith.
  rewrite (substring_skip "ORD" _ 6).
  rewrite <- (NumberFacts.length_datePart now Hv). apply substring_prefix.
Qed.

(** Equal order numbers come from the same day of the century and the
    same sequence number. *)
Lemma numberWith_inj (a b : Date) (n m : Z) :
  JsDate.valid a -> JsDate.valid b -> 0 <= n -> 0 <= m ->
  numberWith a n = numberWith b m ->
  JsDate.getFullYear a mod 100 = JsDate.getFullYear b mod 100 /\
  JsDate.getMonth a = JsDate.getMonth b /\
  JsDate.getDate a = JsDate.getDate b /\ n = m.
Proof.
  intros Ha Hb Hn Hm H.
  assert (Hseq : n = m).
  { rewrite <- (NumberFacts.sequenceOf_numberWith a n Ha Hn).
    rewrite <- (NumberFacts.sequenceOf_numberWith b m Hb Hm). now rewrite H. }
  assert (Hdate : datePart a = datePart b).
  { rewrite <- (datePart_of_number a n Ha), <- (datePart_of_number b m Hb).
    now rewrite H. }
  rewrite !NumberFacts.datePart_valid in Hdate by assumption.
  apply twoDigits_append_inj in Hdate. destruct Hdate as [Hy Hdate].
  apply twoDigits_append_inj in Hdate. destruct Hdate as [Hmo Hdate].
  rewrite <- (append_nil_r (Spec.twoDigits (JsDate.getDate a))) in Hdate.
  rewrite <- (append_nil_r (Spec.twoDigits (JsDate.getDate b))) in Hdate.
  apply twoDigits_append_inj in Hdate. destruct Hdate as [Hd _].
  destruct Ha as (_ & Hma & Hda & _), Hb as (_ & Hmb & Hdb & _).
  pose proof (NumberFacts.daysInMonth_bound (JsDate.getFullYear a) (JsDate.getMonth a)).
  pose proof (NumberFacts.daysInMonth_bound (JsDate.getFullYear b) (JsDate.getMonth b)).
  rewrite !Z.mod_small in Hmo, Hd by lia. repeat split; (assumption || lia).
Qed.

(** X2. An order number can be read back: two order numbers of the hook
    are equal exactly when they have the same last two digits of the
    year, the same month, the same day and the same sequence number. *)
Theorem orderNumber_decodes (a b : Date) (n m : Z) :
  JsDate.valid a -> JsDate.valid b -> 0 <= n -> 0 <= m ->
  numberWith a n = numberWith b m <->
  JsDate.getFullYear a mod 100 = JsDate.getFullYear b mod 100 /\
  JsDate.getMonth a = JsDate.getMonth b /\
  JsDate.getDate a = JsDate.getDate b /\ n = m.
Proof.
  intros Ha Hb Hn Hm. split.
  - now apply numberWith_inj.
  - intros (Hy & Hmo & Hd & ->). unfold numberWith.
    rewrite !NumberFacts.datePart_valid by assumption.
    now rewrite (twoDigits_mod _ _ Hy), Hmo, Hd.
Qed.

(** An instance: the first order of 2025-01-15 and the first order of
    2025-01-16 have different numbers. *)
Lemma orderNumber_decodes_witness :
  numberWith Samples.morning 1 = numberWith (JsDate.mk 2025 0 16 0) 1 <->
  2025 mod 100 = 2025 mod 100 /\ 0 = 0 /\ 15 = 16 /\ 1 = 1.
Proof.
  apply (orderNumber_decodes Samples.morning (JsDate.mk 2025 0 16 0) 1 1).
  - vm_compute. intuition congruence.
  - vm_compute. intuition congruence.
  - lia.
  - lia.
Defined.

Lemma compare_digitChar (x y : Z) :
  0 <= x <= 9 -> 0 <= y <= 9 ->
  Ascii.compare (Js.digitChar x) (Js.digitChar y) = (x ?= y).
Proof.
  intros Hx Hy.
  assert (Ex : x = 0 \/ x = 1 \/ x = 2 \/ x = 3 \/ x = 4 \/ x = 5 \/ x = 6
               \/ x = 7 \/ x = 8 \/ x = 9) by lia.
  assert (Ey : y = 0 \/ y = 1 \/ y = 2 \/ y = 3 \/ y = 4 \/ y = 5 \/ y = 6
               \/ y = 7 \/ y = 8 \/ y = 9) by lia.
  repeat (destruct Ex as [-> | Ex]); try subst x;
    repeat (destruct Ey as [-> | Ey]); try subst y; reflexivity.
Qed.

Lemma compare_append_same (p a b : string) :
  String.compare (p +:+ a) (p +:+ b) = String.compare a b.
Proof.
  induction p as [|c p IH]; [reflexivity|].
  rewrite !append_cons. simpl. unfold Ascii.compare.
  now rewrite N.compare_refl.
Qed.

(** Two digits in front decide the order, unless they are the same. *)
Lemma compare_twoDigits (x y : Z) (s t : string) :
  String.compare (Spec.twoDigits x +:+ s) (Spec.twoDigits y +:+ t) =
  match x mod 100 ?= y mod 100 with
  | Eq => String.compare s t
  | c => c
  end.
Proof.
  unfold Spec.twoDigits. rewrite !append_cons, !append_nil_l. simpl.
  rewrite !compare_digitChar by apply mod10_digit.
  destruct (Z.compare_spec (x / 10 mod 10) (y / 10 mod 10)),
    (Z.compare_spec (x mod 10) (y mod 10)),
    (Z.compare_spec (x mod 100) (y mod 100));
    try reflexivity; exfalso; Z.div_mod_to_equations; lia.
Qed.

Lemma compare_threeDigits (n m : Z) :
  0 <= n <= 999 -> 0 <= m <= 999 ->
  String.compare (Spec.threeDigits n) (Spec.threeDigits m) = (n ?= m).
Proof.
  intros Hn Hm. unfold Spec.threeDigits. cbn [String.compare].
  rewrite compare_digitChar by apply mod10_digit.
  rewrite <- (append_nil_r (Spec.twoDigits n)), <- (append_nil_r (Spec.twoDigits m)).
  rewrite compare_twoDigits. cbn [String.compare].
  destruct (Z.compare_spec (n / 100 mod 10) (m / 100 mod 10)),
    (Z.compare_spec (n mod 100) (m mod 100)),
    (Z.compare_spec n m);
    try reflexivity; exfalso; Z.div_mod_to_equations; lia.
Qed.

(** X3. Order numbers sort as the orders were made: within one century
    and while the daily sequence stays within 999, one order number is
    before another, as a string, exactly when its day is earlier, or the
    day is the same and its sequence number is smaller. *)
Theorem orderNumbers_sort_chronologically (c : Z) (a b : Date) (n m : Z) :
  JsDate.valid a -> JsDate.valid b ->
  Kept.inCentury c a -> Kept.inCentury c b ->
  0 <= n <= 999 -> 0 <= m <= 999 ->
  String.ltb (numberWith a n) (numberWith b m) = true <->
  Kept.dayBefore a b \/ (JsDate.sameDay a b /\ n < m).
Proof.
  intros Ha Hb Hca Hcb Hn Hm. unfold String.ltb, numberWith.
  rewrite !NumberFacts.datePart_valid, !padStart3_threeDigits by (assumption || lia).
  rewrite compare_append_same, !append_assoc.
  rewrite !compare_twoDigits, compare_threeDigits by lia.
  destruct Ha as (_ & Hma & Hda & _), Hb as (_ & Hmb & Hdb & _).
  pose proof (NumberFacts.daysInMonth_bound (JsDate.getFullYear a) (JsDate.getMonth a)).
  pose proof (NumberFacts.daysInMonth_bound (JsDate.getFullYear b) (JsDate.getMonth b)).
  unfold Kept.inCentury, Kept.dayBefore, JsDate.sameDay in *.
  rewrite !(Z.mod_small (_ + 1)), !(Z.mod_small (JsDate.getDate _)) by lia.
  assert (Hy : (JsDate.getFullYear a mod 100 ?= JsDate.getFullYear b mod 100)
               = (JsDate.getFullYear a ?= JsDate.getFullYear b)).
  { destruct (Z.compare_spec (JsDate.getFullYear a) (JsDate.getFullYear b)),
      (Z.compare_spec (JsDate.getFullYear a mod 100) (JsDate.getFullYear b mod 100));
      try reflexivity; exfalso; Z.div_mod_to_equations; lia. }
  rewrite Hy.
  destruct (Z.compare_spec (JsDate.getFullYear a) (JsDate.getFullYear b)),
    (Z.compare_spec (JsDate.getMonth a + 1) (JsDate.getMonth b + 1)),
    (Z.compare_spec (JsDate.getDate a) (JsDate.getDate b)),
    (Z.compare_spec n m); split; intros; try discriminate; try reflexivity; lia.
Qed.

(** An instance: the 999th order of 2025-01-15 sorts before the first of
    2025-01-16. *)
Lemma orderNumbers_sort_chronologically_witness :
  String.ltb (numberWith Samples.morning 999) (numberWith (JsDate.mk 2025 0 16 0) 1)
    = true <->
  Kept.dayBefore Samples.morning (JsDate.mk 2025 0 16 0) \/
  (JsDate.sameDay Samples.morning (JsDate.mk 2025 0 16 0) /\ 999 < 1).
Proof.
  apply (orderNumbers_sort_chronologically 20 Samples.morning
           (JsDate.mk 2025 0 16 0) 999 1);
    vm_compute; intuition congruence.
Defined.

(** Past 999 the string order no longer follows the sequence. *)
Example thousandth_sorts_first :
  String.ltb (numberWith Samples.morning 1000) (numberWith Samples.morning 999)
  = true.
Proof. reflexivity. Qed.

End HookProps.

(** ** More on the routes *)

Module RouteProps.
Import Order Routes ValidatorFacts.

(** The order a status update stores. *)
Lemma updateStatus_stored (now : Date) (b : StatusBody) (st : Store) (o : t) :
  validateStatus b = [] -> st !! _id o = Some o ->
  exists o',
    updateStatus now (Some (_id o)) b st =
    (mkResponse 200 (MessageOrder "Order status updated successfully" (Some o')),
     <[_id o := o']> st) /\
    Kept.samePurchase o o' /\ tracking o' = tracking o /\
    Order.refund o' = Order.refund o /\ updatedAt o' = Some now.
Proof.
  intros Hv Ho. pose proof Hv as Hv'.
  apply validateStatus_nil in Hv'. destruct Hv' as [Hs Hp].
  apply isIn_In in Hs. destruct Hs as (target & Hs & _).
  unfold updateStatus. run_route.
  rewrite bool_decide_eq_true_2 by exact Hv. simpl.
  rewrite Ho, Hs. simpl.
  destruct (sb_paymentStatus b) as [ps|] eqn:Eps.
  - simpl in Hp. apply (isIn_In paymentStatuses (Some ps)) in Hp.
    destruct Hp as (ps' & [= <-] & Hin).
    rewrite (StatusFacts.paymentStatuses_truthy ps Hin).
    unfold save, bind, preSave, stamp, write, modify. simpl.
    rewrite lookup_insert_eq. simpl. eexists. split; [reflexivity|].
    unfold Kept.samePurchase. now repeat split.
  - unfold save, bind, preSave, stamp, write, modify. simpl.
    rewrite lookup_insert_eq. simpl. eexists. split; [reflexivity|].
    unfold Kept.samePurchase. now repeat split.
Qed.

Lemma samePurchase_refl (o : t) : Kept.samePurchase o o.
Proof. unfold Kept.samePurchase. now repeat split. Qed.

(** X4. A status update touches one order only, and of that order only
    [status], [paymentStatus] and the time of the last save: whatever the
    route answers, the order keeps its purchase data, its tracking and its
    refund record, and every other order is what it was. *)
Theorem updateStatus_frame (now : Date) (b : StatusBody) (st : Store) (o : t) :
  st !! _id o = Some o ->
  let st' := (updateStatus now (Some (_id o)) b st).2 in
  (exists o',
     st' !! _id o = Some o' /\ Kept.samePurchase o o' /\
     tracking o' = tracking o /\ Order.refund o' = Order.refund o) /\
  (forall k, k <> _id o -> st' !! k = st !! k).
Proof.
  intros Ho st'. subst st'.
  destruct (decide (validateStatus b = [])) as [Hv | Hv].
  - destruct (updateStatus_stored now b st o Hv Ho)
      as (o' & -> & Hsame & Htr & Hre & _).
    simpl. split.
    + exists o'. rewrite lookup_insert_eq. split; [reflexivity|].
      split; [exact Hsame|]. now split.
    + intros k Hk. now rewrite lookup_insert_ne.
  - rewrite StatusFacts.updateStatus_invalid by exact Hv. simpl. split.
    + exists o. split; [exact Ho|]. split; [apply samePurchase_refl|].
      now repeat split.
    + reflexivity.
Qed.

(** An instance: the order just placed is set to processing and paid. *)
Lemma updateStatus_frame_witness :
  let st' :=
    (updateStatus Samples.noon (Some 100%N)
       (mkStatusBody (Some "processing") (Some "paid")) Samples.oneOrder).2 in
  (exists o',
     st' !! 100%N = Some o' /\ Kept.samePurchase Samples.placed o' /\
     tracking o' = tracking Samples.placed /\
     Order.refund o' = Order.refund Samples.placed) /\
  (forall k, k <> 100%N -> st' !! k = Samples.oneOrder !! k).
Proof.
  apply (updateStatus_frame Samples.noon
           (mkStatusBody (Some "processing") (Some "paid")) Samples.oneOrder
           Samples.placed).
  reflexivity.
Defined.



(** X6. A tracking update never changes the status, the payment status,
    the refund record or the purchase data of its order, and never
    touches another order, whatever the route answers. *)
Theorem addTracking_frame (now : Date) (b : TrackingBody) (st : Store) (o : t) :
  st !! _id o = Some o ->
  let st' := (addTracking now (Some (_id o)) b st).2 in
  (exists o',
     st' !! _id o = Some o' /\ Kept.samePurchase o o' /\
     status o' = status o /\ paymentStatus o' = paymentStatus o /\
     Order.refund o' = Order.refund o) /\
  (forall k, k <> _id o -> st' !! k = st !! k).
Proof.
  intros Ho st'. subst st'.
  destruct (decide (validateTracking b = [])) as [Hv | Hv].
  - pose proof Hv as Hv'. apply validateTracking_nil, notEmpty_spec in Hv'.
    destruct Hv' as (s & Hs & Hne).
    rewrite (TrackingFacts.addTracking_accepted now b st o s Ho Hs Hne). simpl.
    split.
    + eexists. rewrite lookup_insert_eq. split; [reflexivity|].
      unfold Kept.samePurchase. now repeat split.
    + intros k Hk. now rewrite lookup_insert_ne.
  - rewrite ServiceFacts.addTracking_invalid by exact Hv. simpl. split.
    + exists o. split; [exact Ho|]. split; [apply samePurchase_refl|].
      now repeat split.
    + reflexivity.
Qed.

(** An instance: a tracking update on the order just placed. *)
Lemma addTracking_frame_witness :
  let st' :=
    (addTracking Samples.noon (Some 100%N)
       (mkTrackingBody (Some "shipped") None None) Samples.oneOrder).2 in
  (exists o',
     st' !! 100%N = Some o' /\ Kept.samePurchase Samples.placed o' /\
     status o' = "pending" /\ paymentStatus o' = "pending" /\
     Order.refund o' = None) /\
  (forall k, k <> 100%N -> st' !! k = Samples.oneOrder !! k).
Proof.
  apply (addTracking_frame Samples.noon
           (mkTrackingBody (Some "shipped") None None) Samples.oneOrder
           Samples.placed).
  reflexivity.
Defined.

(** X7. The refund route checks the body before it looks for the order:
    a body that fails a validator is answered 400 with the messages of
    the failing validators, in order, whatever the id; a valid body whose
    id is no ObjectId or finds no order is answered 404; neither writes. *)
Theorem refund_errors_first :
  (forall now user id b st,
     validateRefund b <> [] ->
     Routes.refund now user id b st =
     (mkResponse 400 (Errors (validateRefund b)), st) /\
     validateRefund b =
       (if isFloat 0 (rb_amount b) then []
        else ["Refund amount must be a positive number"])
       ++ (if notEmpty (rb_reason b) then []
           else ["Refund reason is required"])) /\
  (forall now user id b st,
     validateRefund b = [] ->
     match id with Some k => st !! k = None | None => True end ->
     Routes.refund now user id b st =
     (mkResponse 404 (Message "Order not found"), st)).
Proof.
  split.
  - intros now user id b st Hv.
    split; [now apply RefundFacts.refund_invalid | reflexivity].
  - apply ServiceFacts.refund_missing.
Qed.

(** Instances: no amount and no reason for an id nobody has, and a valid
    body for an id that is no ObjectId. *)
Lemma refund_errors_first_witness :
  Routes.refund Samples.noon Samples.admin (Some 5%N) (mkRefundBody None None)
    Samples.oneOrder =
  (mkResponse 400 (Errors ["Refund amount must be a positive number";
                           "Refund reason is required"]), Samples.oneOrder) /\
  Routes.refund Samples.noon Samples.admin None
    (mkRefundBody (Some 10%float) (Some "late")) Samples.oneOrder =
  (mkResponse 404 (Message "Order not found"), Samples.oneOrder).
Proof.
  destruct refund_errors_first as (Hbad & Hmissing). split.
  - apply (Hbad Samples.noon Samples.admin (Some 5%N) (mkRefundBody None None)
             Samples.oneOrder). discriminate.
  - apply Hmissing; reflexivity.
Defined.



Section Create.

Variable isEmail : string -> bool.
Variable designs : gmap ObjectId Design.t.

(** X9. The create route never stores an order.  Whatever the request,
    the collection after it is the collection before it and the answer is
    400 or 500, never 201.  It is 500 exactly for the requests that pass
    the validators and name published designs only: the route builds
    their order, and the save of that order fails the validation, which
    wants the order number that only the later pre-save hook assigns. *)
Theorem create_never_stores (now : Date) (freshId user : ObjectId)
    (b : CreateBody) (st : Store) :
  (create isEmail designs now freshId user b st).2 = st /\
  (statusCode (create isEmail designs now freshId user b st).1 = 400 \/
   create isEmail designs now freshId user b st =
   (mkResponse 500 (Message "Server error"), st)) /\
  (statusCode (create isEmail designs now freshId user b st).1 = 500 <->
   exists its,
     validateCreate isEmail b = [] /\ items b = Some its /\
     Forall (purchasable designs) its).
Proof.
  destruct (CreateFacts.create_cases isEmail designs now freshId user b st)
    as [(its & lines & method & billing & Hv & Hi & _ & _ & Hl & _ & Hrun)
       | [[Hv Hrun]
       | (its & good & it & rest & p & Hv & Hi & -> & _ & Hbad & Hrun)]];
    rewrite Hrun; simpl.
  - split; [reflexivity|]. split; [now right|]. split; [|reflexivity].
    intros _. exists its. split; [exact Hv|]. split; [exact Hi|].
    eapply Forall2_Forall_l; [exact Hl|].
    apply Forall_forall. intros l _ x. apply CreateFacts.lineOf_purchasable.
  - split; [reflexivity|]. split; [now left|]. split; [discriminate|].
    intros (its & Hv' & _). contradiction.
  - split; [reflexivity|]. split; [now left|]. split; [discriminate|].
    intros (its' & _ & Hi' & Hp). exfalso.
    rewrite Hi in Hi'. injection Hi' as <-.
    apply Forall_app in Hp. destruct Hp as [_ Hp].
    apply Forall_cons in Hp. destruct Hp as [Hp _].
    apply (CreateFacts.purchasable_not_bad designs it Hp).
    destruct Hbad as [[Hm _] | (dsg & Hr & Hs & _)]; [now left | right].
    now exists dsg.
Qed.

Lemma eachItem_bad (v : option (list ItemBody)) (ok : ItemBody -> bool)
    (msg : string) (its : list ItemBody) (it : ItemBody) :
  v = Some its -> In it its -> ok it = false -> eachItem v ok msg <> [].
Proof.
  intros -> Hin Hbad H. unfold eachItem in H. simpl in H.
  induction its as [|x its IH]; [contradiction|].
  simpl in H. apply app_nil in H. destruct H as [H1 H2].
  destruct Hin as [-> | Hin]; [|auto].
  rewrite Hbad in H1. discriminate.
Qed.

(** X10. The create route refuses, with 400 and the validation errors and
    without writing: a body without an item list or
    with an empty one; an item without a design id, with a quantity that
    is not a whole number of at least 1, or with a license outside the
    three; a payment method outside the four; a body without billing
    address, billing name or valid billing email. *)
Theorem create_rejects_invalid (now : Date) (freshId user : ObjectId)
    (b : CreateBody) (st : Store) :
  items b = None \/ items b = Some [] \/
  (exists its it,
     items b = Some its /\ In it its /\
     (design it = None \/ isInt 1 (quantity it) = false \/
      isIn licenses (license it) = false)) \/
  isIn paymentMethods (paymentMethod b) = false \/
  billingAddress b = None \/
  (exists a, billingAddress b = Some a /\
             (notEmpty (Address.name a) = false \/
              match Address.email a with
              | Some e => isEmail e = false
              | None => True
              end)) ->
  validateCreate isEmail b <> [] /\
  create isEmail designs now freshId user b st =
  (mkResponse 400 (Errors (validateCreate isEmail b)), st).
Proof.
  intros Hbad.
  assert (Hv : validateCreate isEmail b <> []).
  { unfold validateCreate. rewrite !app_nil, !check_nil.
    intros (Hitems & Hd & Hq & Hl & Hm & Hb & Hn & He).
    destruct Hbad as [H | [H | [(its & it & Hi & Hin & H) | [H | [H | (a & Ha & H)]]]]].
    - rewrite H in Hitems. discriminate.
    - rewrite H in Hitems. discriminate.
    - destruct H as [H | [H | H]].
      + revert Hd. apply (eachItem_bad _ _ _ its it Hi Hin). now rewrite H.
      + revert Hq. now apply (eachItem_bad _ _ _ its it Hi Hin).
      + revert Hl. now apply (eachItem_bad _ _ _ its it Hi Hin).
    - congruence.
    - rewrite H in Hb. discriminate.
    - rewrite Ha in Hn, He. simpl in Hn, He. destruct H as [H | H]; [congruence|].
      destruct (Address.email a); [congruence | discriminate]. }
  split; [exact Hv|].
  destruct (CreateFacts.create_cases isEmail designs now freshId user b st)
    as [(? & ? & ? & ? & Hok & _) | [[_ Hrun]
       | (? & ? & ? & ? & ? & Hok & _)]];
    try contradiction.
  exact Hrun.
Qed.

End Create.

(** Instances: the cart of the example, and the cart with a draft. *)
Lemma create_never_stores_witness :
  create Samples.isEmail Samples.designs Samples.noon 101%N Samples.customer
    Samples.cart Samples.oneOrder =
  (mkResponse 500 (Message "Server error"), Samples.oneOrder) /\
  create Samples.isEmail Samples.designs Samples.noon 101%N Samples.customer
    Samples.cartDraft Samples.oneOrder =
  (mkResponse 400 (DesignNotAvailable "Garden Pavilion"), Samples.oneOrder).
Proof.
  split.
  - destruct (create_never_stores Samples.isEmail Samples.designs Samples.noon
                101%N Samples.customer Samples.cart Samples.oneOrder)
      as (_ & [H400 | H500] & _); [|exact H500].
    vm_compute in H400. discriminate.
  - pose proof (create_never_stores Samples.isEmail Samples.designs Samples.noon
                  101%N Samples.customer Samples.cartDraft Samples.oneOrder)
      as (Hst & _ & _).
    rewrite (surjective_pairing (create _ _ _ _ _ _ _)), Hst.
    f_equal.
Defined.

(** Instances: an empty cart, and half a design. *)
Lemma create_rejects_invalid_witness :
  (validateCreate Samples.isEmail (Samples.bodyOf []) <> [] /\
   create Samples.isEmail Samples.designs Samples.morning 100%N Samples.customer
     (Samples.bodyOf []) ∅ =
   (mkResponse 400 (Errors (validateCreate Samples.isEmail (Samples.bodyOf []))),
    ∅)) /\
  (validateCreate Samples.isEmail
     (Samples.bodyOf [Samples.item 1%N 0.5%float "personal"]) <> [] /\
   create Samples.isEmail Samples.designs Samples.morning 100%N Samples.customer
     (Samples.bodyOf [Samples.item 1%N 0.5%float "personal"]) ∅ =
   (mkResponse 400
      (Errors (validateCreate Samples.isEmail
                 (Samples.bodyOf [Samples.item 1%N 0.5%float "personal"]))),
    ∅)).
Proof.
  split.
  - apply (create_rejects_invalid Samples.isEmail Samples.designs
             Samples.morning 100%N Samples.customer (Samples.bodyOf []) ∅).
    right. left. reflexivity.
  - apply (create_rejects_invalid Samples.isEmail Samples.designs
             Samples.morning 100%N Samples.customer
             (Samples.bodyOf [Samples.item 1%N 0.5%float "personal"]) ∅).
    right. right. left.
    exists [Samples.item 1%N 0.5%float "personal"],
           (Samples.item 1%N 0.5%float "personal").
    split; [reflexivity|]. split; [now left|]. right. left. reflexivity.
Defined.

End RouteProps.

(** ** More on the service *)

Module ServiceProps.
Import Order Routes ValidatorFacts.

Lemma samePurchase_trans (o1 o2 o3 : t) :
  Kept.samePurchase o1 o2 -> Kept.samePurchase o2 o3 -> Kept.samePurchase o1 o3.
Proof. unfold Kept.samePurchase. intuition congruence. Qed.

Lemma samePurchase_totalsOk (o o' : t) :
  Kept.samePurchase o o' -> Kept.totalsOk o -> Kept.totalsOk o'.
Proof.
  unfold Kept.samePurchase, Kept.totalsOk.
  intros (_ & _ & _ & Hi & Hs & Ht & Hto & _) (H1 & H2 & H3).
  rewrite Hi, Hs, Ht, Hto. auto.
Qed.

Section Service.

Variable isEmail : string -> bool.

(** Whatever the request, the purchase data of the stored orders stays. *)
Lemma handle_change (s : Step) (st : Store) :
  wf st -> Kept.Change (at_ s) st (handle isEmail s st).2.
Proof.
  intros Hwf. unfold handle. destruct (request s) as [freshId user b | id b | id b | user id b].
  - destruct (CreateFacts.create_cases isEmail (catalogue s) (at_ s) freshId user b st)
      as [(? & ? & ? & ? & _ & _ & _ & _ & _ & _ & ->)
         | [[_ ->] | (? & ? & ? & ? & ? & _ & _ & _ & _ & _ & ->)]];
      now apply Kept.Same.
  - destruct (decide (validateStatus b = [])) as [Hv | Hv];
      [|rewrite StatusFacts.updateStatus_invalid by exact Hv; now apply Kept.Same].
    destruct id as [k|];
      [|rewrite StatusFacts.updateStatus_missing by auto; now apply Kept.Same].
    destruct (st !! k) as [o|] eqn:Ho;
      [|rewrite StatusFacts.updateStatus_missing by auto; now apply Kept.Same].
    pose proof (Hwf k o Ho) as <-.
    destruct (RouteProps.updateStatus_stored (at_ s) b st o Hv Ho)
      as (o' & -> & Hsame & _).
    now apply (Kept.Touched _ _ _ (_id o) o o').
  - destruct (decide (validateTracking b = [])) as [Hv | Hv];
      [|rewrite ServiceFacts.addTracking_invalid by exact Hv; now apply Kept.Same].
    destruct id as [k|];
      [|rewrite ServiceFacts.addTracking_missing by auto; now apply Kept.Same].
    destruct (st !! k) as [o|] eqn:Ho;
      [|rewrite ServiceFacts.addTracking_missing by auto; now apply Kept.Same].
    pose proof (Hwf k o Ho) as <-.
    pose proof Hv as Hv'. apply validateTracking_nil, notEmpty_spec in Hv'.
    destruct Hv' as (sx & Hs & Hne).
    rewrite (TrackingFacts.addTracking_accepted (at_ s) b st o sx Ho Hs Hne).
    eapply (Kept.Touched _ _ _ (_id o) o); [exact Ho | reflexivity |].
    unfold Kept.samePurchase. now repeat split.
  - destruct (decide (validateRefund b = [])) as [Hv | Hv];
      [|rewrite RefundFacts.refund_invalid by exact Hv; now apply Kept.Same].
    destruct id as [k|];
      [|rewrite ServiceFacts.refund_missing by auto; now apply Kept.Same].
    destruct (st !! k) as [o|] eqn:Ho;
      [|rewrite ServiceFacts.refund_missing by auto; now apply Kept.Same].
    pose proof (Hwf k o Ho) as <-.
    pose proof Hv as Hv'. apply validateRefund_nil in Hv'. destruct Hv' as [Ha Hr].
    apply notEmpty_spec in Hr. destruct Hr as (reason & Hr & _).
    destruct (rb_amount b) as [amount|] eqn:Ea; [|discriminate].
    destruct (total o <? amount)%float eqn:Hgt.
    + erewrite RefundFacts.refund_too_much by eauto. now apply Kept.Same.
    + erewrite RefundFacts.refund_accepted by eauto.
      eapply (Kept.Touched _ _ _ (_id o) o); [exact Ho | reflexivity |].
      unfold Kept.samePurchase. now repeat split.
Qed.

(** X11. Once stored, an order is never removed and its purchase data
    never changes: whatever requests follow (status updates, tracking
    updates, refunds, other orders, at whatever prices the designs then
    have), it keeps its [_id], order number, customer, items with their
    prices, subtotal, tax, total, currency, payment method, addresses,
    notes and creation time. *)
Theorem run_keeps_purchase (steps : list Step) (st : Store) (k : ObjectId) (o : t) :
  wf st -> st !! k = Some o ->
  exists o', (run isEmail steps st).2 !! k = Some o' /\ Kept.samePurchase o o'.
Proof.
  revert st o. induction steps as [|s rest IH]; intros st o Hwf Hk.
  - exists o. split; [exact Hk | apply RouteProps.samePurchase_refl].
  - rewrite ServiceFacts.run_cons. simpl.
    pose proof (ServiceFacts.handle_effect isEmail s st Hwf) as He.
    pose proof (ServiceFacts.Effect_wf _ _ _ _ Hwf He) as Hwf1.
    assert (H1 : exists o1, (handle isEmail s st).2 !! k = Some o1 /\
                            Kept.samePurchase o o1).
    { destruct (handle_change s st Hwf) as [-> | k1 a a' Ha -> Hsame].
      - exists o. split; [exact Hk | apply RouteProps.samePurchase_refl].
      - destruct (decide (k1 = k)) as [-> | Hne].
        + rewrite lookup_insert_eq. exists a'. split; [reflexivity|]. congruence.
        + rewrite lookup_insert_ne by exact Hne.
          exists o. split; [exact Hk | apply RouteProps.samePurchase_refl]. }
    destruct H1 as (o1 & Hk1 & Hs1).
    destruct (IH _ o1 Hwf1 Hk1) as (o' & Hk' & Hs').
    exists o'. split; [exact Hk' | eapply samePurchase_trans; eauto].
Qed.

Lemma totalsOk_fixed (o : t) : Kept.totalsOk o -> calculateTotals o = o.
Proof.
  destruct o. unfold Kept.totalsOk, calculateTotals. simpl.
  intros (H1 & H2 & H3). rewrite <- H1, <- H3. reflexivity.
Qed.

(** A collection whose orders have amounts that fit their items keeps
    such orders, whatever the requests. *)
Lemma run_totalsOk (steps : list Step) (st : Store) :
  wf st -> (forall k o, st !! k = Some o -> Kept.totalsOk o) ->
  forall k o, (run isEmail steps st).2 !! k = Some o -> Kept.totalsOk o.
Proof.
  revert st. induction steps as [|s rest IH]; intros st Hwf Hall; [exact Hall|].
  rewrite ServiceFacts.run_cons. simpl.
  pose proof (ServiceFacts.handle_effect isEmail s st Hwf) as He.
  apply IH; [exact (ServiceFacts.Effect_wf _ _ _ _ Hwf He)|].
  intros k o.
  destruct (handle_change s st Hwf) as [-> | k1 a a' Ha -> Hsame].
  - apply Hall.
  - destruct (decide (k1 = k)) as [-> | Hne].
    + rewrite lookup_insert_eq. intros [= <-].
      eapply samePurchase_totalsOk; eauto.
    + rewrite lookup_insert_ne by exact Hne. apply Hall.
Qed.

(** X12. The amounts of the stored orders stay what their items make
    them.  If every stored order has [subtotal] = the sum of price times
    quantity over its items, [tax] = [subtotal * 0.085] and [total] =
    [subtotal + tax], then so has every stored order after any sequence
    of requests, and [calculateTotals] returns each of them as it is. *)
Theorem run_keeps_totals (steps : list Step) (st : Store) (k : ObjectId) (o : t) :
  wf st -> (forall i x, st !! i = Some x -> Kept.totalsOk x) ->
  (run isEmail steps st).2 !! k = Some o ->
  Kept.totalsOk o /\ calculateTotals o = o.
Proof.
  intros Hwf Hall Hk.
  assert (Hok : Kept.totalsOk o) by exact (run_totalsOk steps st Hwf Hall k o Hk).
  split; [exact Hok | now apply totalsOk_fixed].
Qed.

(** One request leaves the collection its ids. *)
Lemma Effect_ids (now : Date) (st : Store) (r : Response) (st' : Store) :
  Effect now st r st' ->
  (forall k, is_Some (st' !! k) <-> is_Some (st !! k)) /\
  size st' = size st /\ statusCode r <> 201.
Proof.
  intros [-> Hr | k1 o o' Hk -> _ _ _ Hr].
  - now repeat split.
  - split; [|split; [|exact Hr]].
    + intros k. destruct (decide (k1 = k)) as [-> | Hne].
      * rewrite lookup_insert_eq, Hk. split; eauto.
      * now rewrite lookup_insert_ne.
    + apply map_size_insert_Some. eauto.
Qed.

(** X13. No request adds an order to the collection or removes one.
    After any sequence of requests to the four writing routes the
    collection has exactly the ids it had, hence as many orders, and no
    answer is a 201. *)
Theorem run_keeps_ids (steps : list Step) (st : Store) :
  wf st ->
  (forall k, is_Some ((run isEmail steps st).2 !! k) <-> is_Some (st !! k)) /\
  size (run isEmail steps st).2 = size st /\
  Forall (fun r => statusCode r <> 201) (run isEmail steps st).1.
Proof.
  revert st. induction steps as [|s rest IH]; intros st Hwf.
  - simpl. split; [reflexivity|]. split; [reflexivity | constructor].
  - rewrite ServiceFacts.run_cons. cbn [fst snd].
    pose proof (ServiceFacts.handle_effect isEmail s st Hwf) as He.
    destruct (Effect_ids _ _ _ _ He) as (Hids & Hsize & Hr).
    destruct (IH _ (ServiceFacts.Effect_wf _ _ _ _ Hwf He)) as (Hids' & Hsize' & Hrs).
    split; [|split].
    + intros k. now rewrite Hids', Hids.
    + now rewrite Hsize', Hsize.
    + now constructor.
Qed.

End Service.

(** An instance: the order of the example through a status update, a
    tracking update and a refund, while the price of design A doubles. *)
Lemma run_keeps_purchase_witness :
  let dearer :=
    <[1%N := Design.mk 1%N "Modern Villa 2D Plan" 200%float "published"]>
      Samples.designs in
  let steps :=
    [mkStep Samples.noon dearer
       (UpdateStatus (Some 100%N) (mkStatusBody (Some "completed") (Some "paid")));
     mkStep Samples.noon dearer
       (AddTracking (Some 100%N) (mkTrackingBody (Some "sent") None None));
     mkStep Samples.evening dearer
       (Create 101%N 72%N Samples.cart);
     mkStep Samples.evening dearer
       (ProcessRefund Samples.admin (Some 100%N)
          (mkRefundBody (Some 217%float) (Some "cancelled project")))] in
  exists o',
    (run Samples.isEmail steps Samples.oneOrder).2 !! 100%N = Some o' /\
    Kept.samePurchase Samples.placed o'.
Proof.
  intros dearer steps.
  apply (run_keeps_purchase Samples.isEmail steps Samples.oneOrder 100%N
           Samples.placed).
  - intros k o Hk. unfold Samples.oneOrder in Hk.
    destruct (decide (k = 100%N)) as [-> | Hne].
    + rewrite lookup_insert_eq in Hk. now injection Hk as <-.
    + rewrite lookup_insert_ne, lookup_empty in Hk by congruence. discriminate.
  - reflexivity.
Defined.

Lemma wf_oneOrder : wf Samples.oneOrder.
Proof.
  intros k o Hk. unfold Samples.oneOrder in Hk.
  destruct (decide (k = 100%N)) as [-> | Hne].
  - rewrite lookup_insert_eq in Hk. now injection Hk as <-.
  - rewrite lookup_insert_ne, lookup_empty in Hk by congruence. discriminate.
Qed.

(** An instance: the stored order of the example after a refund of a
    part, a cart and a status update. *)
Lemma run_keeps_totals_witness :
  exists o,
    (run Samples.isEmail
       [mkStep Samples.noon Samples.designs
          (ProcessRefund Samples.admin (Some 100%N)
             (mkRefundBody (Some 50%float) (Some "one file missing")));
        mkStep Samples.noon Samples.designs
          (Create 101%N Samples.customer Samples.cart);
        mkStep Samples.evening Samples.designs
          (UpdateStatus (Some 100%N) (mkStatusBody (Some "completed") None))]
       Samples.oneOrder).2 !! 100%N = Some o /\
    Kept.totalsOk o /\ calculateTotals o = o.
Proof.
  destruct ((run Samples.isEmail
       [mkStep Samples.noon Samples.designs
          (ProcessRefund Samples.admin (Some 100%N)
             (mkRefundBody (Some 50%float) (Some "one file missing")));
        mkStep Samples.noon Samples.designs
          (Create 101%N Samples.customer Samples.cart);
        mkStep Samples.evening Samples.designs
          (UpdateStatus (Some 100%N) (mkStatusBody (Some "completed") None))]
       Samples.oneOrder).2 !! 100%N) as [o|] eqn:E.
  - exists o. split; [reflexivity|].
    refine (run_keeps_totals Samples.isEmail _ Samples.oneOrder 100%N o
              wf_oneOrder _ E).
    intros i x Hi. unfold Samples.oneOrder in Hi.
    destruct (decide (i = 100%N)) as [-> | Hne].
    + rewrite lookup_insert_eq in Hi. injection Hi as <-.
      repeat split; reflexivity.
    + rewrite lookup_insert_ne, lookup_empty in Hi by congruence. discriminate.
  - vm_compute in E. discriminate.
Defined.

(** An instance: two carts, one of them with a draft, and a status
    update. *)
Lemma run_keeps_ids_witness :
  let steps :=
    [mkStep Samples.noon Samples.designs
       (Create 101%N Samples.customer Samples.cart);
     mkStep Samples.noon Samples.designs
       (Create 102%N Samples.customer Samples.cartDraft);
     mkStep Samples.noon Samples.designs
       (UpdateStatus (Some 100%N) (mkStatusBody (Some "processing") None))] in
  (forall k, is_Some ((run Samples.isEmail steps Samples.oneOrder).2 !! k) <->
             is_Some (Samples.oneOrder !! k)) /\
  size (run Samples.isEmail steps Samples.oneOrder).2 = size Samples.oneOrder /\
  Forall (fun r => statusCode r <> 201)
         (run Samples.isEmail steps Samples.oneOrder).1.
Proof.
  intros steps. apply (run_keeps_ids Samples.isEmail steps Samples.oneOrder).
  exact wf_oneOrder.
Defined.

(** The answers of that instance. *)
Example run_answers :
  map statusCode
    (run Samples.isEmail
       [mkStep Samples.noon Samples.designs
          (Create 101%N Samples.customer Samples.cart);
        mkStep Samples.noon Samples.designs
          (Create 102%N Samples.customer Samples.cartDraft);
        mkStep Samples.noon Samples.designs
          (UpdateStatus (Some 100%N) (mkStatusBody (Some "processing") None))]
       Samples.oneOrder).1 = [500; 400; 200].
Proof. vm_compute. reflexivity. Qed.

End ServiceProps.

(** ** The number of the hook is new *)

Module UniqueProps.
Import Order Routes.

Lemma inCentury_year (c : Z) (a b : Date) :
  Kept.inCentury c a -> Kept.inCentury c b ->
  JsDate.getFullYear a mod 100 = JsDate.getFullYear b mod 100 ->
  JsDate.getFullYear a = JsDate.getFullYear b.
Proof.
  unfold Kept.inCentury. intros Ha Hb H.
  pose proof (Z.div_mod (JsDate.getFullYear a) 100 ltac:(lia)).
  pose proof (Z.div_mod (JsDate.getFullYear b) 100 ltac:(lia)).
  pose proof (Z.mod_pos_bound (JsDate.getFullYear a) 100 ltac:(lia)).
  pose proof (Z.mod_pos_bound (JsDate.getFullYear b) 100 ltac:(lia)).
  lia.
Qed.

(** Storing one more order lowers no count. *)
Lemma orderCount_insert (day : Date) (st : Store) (k : ObjectId) (o : t) :
  st !! k = None -> (orderCount day st <= orderCount day (<[k := o]> st))%nat.
Proof.
  intros Hk. unfold orderCount.
  rewrite StoreFacts.countDocuments_insert_new by exact Hk.
  destruct (createdBetween _ _ o); lia.
Qed.

(** An order stored as created at [now] is counted for [now]'s day. *)
Lemma count_after_insert (now : Date) (st : Store) (k : ObjectId) (o : t) :
  JsDate.valid now -> st !! k = None -> createdAt o = Some now ->
  orderCount now (<[k := o]> st) = S (orderCount now st).
Proof.
  intros Hv Hk Hc. unfold orderCount.
  rewrite StoreFacts.countDocuments_insert_new by exact Hk.
  rewrite (NumberFacts.createdBetween_today now now o Hv Hv); [reflexivity| |exact Hc].
  now repeat split.
Qed.

(** X14. The number of the hook is new.  In a collection whose orders
    carry numbers of the hook, each for the day it was created on and
    with a sequence number within the count of that day, the number the
    hook gives a new document, at a time of the same century, is the
    number of no stored order, so the unique index does not refuse it;
    and with that document stored under a new [_id], as created at that
    time, the collection is such a collection again. *)
Theorem hook_number_fresh (c : Z) (now : Date) (d : Doc) (st : Store) :
  JsDate.valid now -> Kept.inCentury c now -> Kept.numbered c st ->
  isNew d = true ->
  preSave now d st =
    Returned (modify (set_orderNumber (Some (numberFor now st))) d) st /\
  (forall k o, st !! k = Some o -> orderNumber o <> Some (numberFor now st)) /\
  numberHeld (Some (numberFor now st)) st = false /\
  (forall k o,
     st !! k = None -> createdAt o = Some now ->
     orderNumber o = Some (numberFor now st) ->
     Kept.numbered c (<[k := o]> st)).
Proof.
  intros Hv Hcen Hnum Hnew.
  assert (Hfresh : forall k o, st !! k = Some o ->
                               orderNumber o <> Some (numberFor now st)).
  { intros k o Hk Heq.
    destruct (Hnum k o Hk) as (t & n & Ht & Hvt & Hct & Hno & Hlo & Hhi).
    assert (Heq' : numberWith t n = numberWith now (nextSequence now st))
      by (unfold numberFor in Heq; congruence).
    apply HookProps.numberWith_inj in Heq';
      [|assumption|assumption|lia|unfold nextSequence; lia].
    destruct Heq' as (Hy & Hm & Hd & Hseq).
    assert (Hsame : JsDate.sameDay t now).
    { repeat split; try assumption. now apply (inCentury_year c). }
    rewrite (NumberFacts.orderCount_sameDay t now st Hsame) in Hhi.
    unfold nextSequence in Hseq. lia. }
  split; [now apply NumberingClaims.preSave_numberFor|].
  split; [exact Hfresh|]. split; [now apply StoreFacts.numberHeld_false|].
  intros k o Hk Hc Hn i x Hi.
  destruct (decide (k = i)) as [-> | Hne].
  - rewrite lookup_insert_eq in Hi. injection Hi as <-.
    exists now, (nextSequence now st).
    refine (conj Hc (conj Hv (conj Hcen (conj Hn _)))).
    rewrite (count_after_insert now st i o Hv Hk Hc).
    unfold nextSequence. lia.
  - rewrite lookup_insert_ne in Hi by exact Hne.
    destruct (Hnum i x Hi) as (t & n & Ht & Hvt & Hct & Hno & Hlo & Hhi).
    pose proof (orderCount_insert t st k o Hk) as Hmono.
    exists t, n. refine (conj Ht (conj Hvt (conj Hct (conj Hno _)))). lia.
Qed.

(** An instance: the collection with the first order of 2025-01-15, and
    a new document at noon of that day. *)
Lemma hook_number_fresh_witness :
  preSave Samples.noon (Samples.cartDoc 101%N) Samples.oneOrder =
    Returned (modify (set_orderNumber
                        (Some (numberFor Samples.noon Samples.oneOrder)))
                     (Samples.cartDoc 101%N)) Samples.oneOrder /\
  (forall k o, Samples.oneOrder !! k = Some o ->
               orderNumber o <> Some (numberFor Samples.noon Samples.oneOrder)) /\
  numberHeld (Some (numberFor Samples.noon Samples.oneOrder)) Samples.oneOrder
    = false /\
  (forall k o,
     Samples.oneOrder !! k = None -> createdAt o = Some Samples.noon ->
     orderNumber o = Some (numberFor Samples.noon Samples.oneOrder) ->
     Kept.numbered 20 (<[k := o]> Samples.oneOrder)).
Proof.
  apply (hook_number_fresh 20 Samples.noon (Samples.cartDoc 101%N)
           Samples.oneOrder).
  - vm_compute. intuition congruence.
  - vm_compute. intuition congruence.
  - intros k o Hk. unfold Samples.oneOrder in Hk.
    destruct (decide (k = 100%N)) as [-> | Hne].
    + rewrite lookup_insert_eq in Hk. injection Hk as <-.
      exists Samples.morning, 1.
      split; [reflexivity|].
      split; [vm_compute; intuition congruence|].
      split; [vm_compute; intuition congruence|].
      split; [reflexivity|]. vm_compute. intuition congruence.
    + rewrite lookup_insert_ne, lookup_empty in Hk by congruence. discriminate.
  - reflexivity.
Defined.

(** The number of that instance. *)
Example second_number :
  numberFor Samples.noon Samples.oneOrder = "ORD250115002".
Proof. vm_compute. reflexivity. Qed.

(** Across centuries the date part repeats: the first order of 2125-01-15
    would get the number of the first order of 2025-01-15. *)
Example centuries_collide :
  numberWith (JsDate.mk 2125 0 15 0) 1 = numberWith (JsDate.mk 2025 0 15 0) 1.
Proof. reflexivity. Qed.

End UniqueProps.

(** ** Reading one order *)

Module ReadProps.
Import Order Reads.

Section GetOrder.

Variable users : gmap ObjectId User.t.
Variable designs : gmap ObjectId Design.t.


(** X16. What GET /:id answers when it shows no order, and what it
    leaves alone: an id that is no ObjectId and an id of no stored order
    get 404 "Order not found"; an order whose customer is not among the
    users gets 500 "Server error"; and whatever the request and the
    answer, the collection is as it was. *)
Theorem getOrder_failures (reqUser : User.t) (id : option ObjectId) (st : Store) :
  (id = None ->
   (getOrder users designs reqUser id st).1 =
     mkReply 404 (MessageJson "Order not found")) /\
  (forall k, id = Some k -> st !! k = None ->
   (getOrder users designs reqUser id st).1 =
     mkReply 404 (MessageJson "Order not found")) /\
  (forall k o, id = Some k -> st !! k = Some o ->
   users !! customer o = None ->
   (getOrder users designs reqUser id st).1 =
     mkReply 500 (MessageJson "Server error")) /\
  (getOrder users designs reqUser id st).2 = st.
Proof.
  unfold getOrder, tryCatch, bind, ret, throw, findById.
  repeat split.
  - now intros ->.
  - intros k -> Hk. now rewrite Hk.
  - intros k o -> Hk Hu. rewrite Hk. simpl. now rewrite Hu.
  - destruct id as [k|]; [|reflexivity].
    destruct (st !! k) as [o|]; [|reflexivity]. simpl.
    destruct (users !! customer o) as [owner|]; [|reflexivity].
    now destruct (_ && _).
Qed.

End GetOrder.


(** The order of a customer who is gone cannot be read, not even by an
    admin. *)
Example getOrder_orphan :
  (getOrder MoreSamples.users Samples.designs MoreSamples.root (Some 200%N)
     MoreSamples.twoOrders).1 =
  mkReply 500 (MessageJson "Server error").
Proof. reflexivity. Qed.

End ReadProps.
